(** * The DMCA takedown route ([src/app/api/dmca/route.ts])

  A shallow embedding of the request handlers [POST] and [GET] of the
  takedown route, of the in-memory rate limiter they share, and of the
  part of the persistence layer they call.  Process-wide state (the
  rate-limit [Map]) and the database tables are threaded explicitly;
  calls that can throw live in a small state-and-exception monad whose
  state survives an exception, as the effects of an awaited store call
  survive a later [throw]. *)

From Stdlib Require Import ZArith Ascii String List Permutation.
From stdpp Require Import gmap strings list fin_maps.

Local Open Scope string_scope.
Local Open Scope Z_scope.

(** ** The rate limiter *)

Module RateLimit.

(** The value type of [rateLimitMap]: [{ count: number; resetAt: number }].
    Both fields are integer-valued JS numbers far below 2^53 (a count of
    at most a handful, a millisecond clock), so they are unbounded
    integers here. *)
Record Entry : Type := mkEntry { count : Z; resetAt : Z }.

Definition RATE_LIMIT_MAX : Z := 5.
Definition RATE_LIMIT_WINDOW : Z := 3600000.

(** [!record || now > record.resetAt] *)
Definition expired (now : Z) (record : option Entry) : bool :=
  match record with
  | None => true
  | Some r => resetAt r <? now
  end.

(** [checkRateLimit(ip)], with [Date.now()] and the map made explicit.
    [record.count++] mutates the object held by the map, which is an
    update of the map at [ip]. *)
Definition checkRateLimit (now : Z) (ip : string)
    (rateLimitMap : gmap string Entry) : bool * gmap string Entry :=
  let record := rateLimitMap !! ip in
  if expired now record then
    (true, <[ip := mkEntry 1 (now + RATE_LIMIT_WINDOW)]> rateLimitMap)
  else
    match record with
    | Some r =>
        if RATE_LIMIT_MAX <=? count r then (false, rateLimitMap)
        else (true, <[ip := mkEntry (count r + 1) (resetAt r)]> rateLimitMap)
    | None => (false, rateLimitMap) (* unreachable: [expired] holds of [None] *)
    end.

(** A sequence of calls, each with the clock reading it sees and its key;
    the decisions are returned in call order. *)
Fixpoint runCalls (calls : list (Z * string)) (m : gmap string Entry)
    : list (string * bool) * gmap string Entry :=
  match calls with
  | [] => ([], m)
  | (now, ip) :: rest =>
      let '(ok, m1) := checkRateLimit now ip m in
      let '(oks, m2) := runCalls rest m1 in
      ((ip, ok) :: oks, m2)
  end.

(** The decisions taken for one key, in order. *)
Definition decisionsFor (ip : string) (ds : list (string * bool)) : list bool :=
  snd <$> filter (λ d, fst d = ip) ds.

(** The table invariant: no stored count is above the maximum. *)
Definition bounded (m : gmap string Entry) : Prop :=
  map_Forall (λ _ r, count r ≤ RATE_LIMIT_MAX) m.

(** The calls among [calls] that are made for [ip]. *)
Definition callsFor (ip : string) (calls : list (Z * string)) : list (Z * string) :=
  filter (λ c, snd c = ip) calls.

End RateLimit.

(** ** JavaScript strings and the URL normalisation of [POST]

    Strings are sequences of code units below 256 (Latin-1); on these the
    functions below are the ECMAScript ones. *)

Module Js.

Definition inRange (lo hi : nat) (c : ascii) : bool :=
  ((lo <=? nat_of_ascii c) && (nat_of_ascii c <=? hi))%nat.

(** [String.prototype.toLowerCase]: the default Unicode lower-case mapping,
    which below 256 moves [A-Z] and U+00C0..U+00DE (without the
    multiplication sign U+00D7) up by 32. *)
Definition lowerChar (c : ascii) : ascii :=
  if inRange 65 90 c || (inRange 192 222 c && negb (nat_of_ascii c =? 215)%nat)
  then ascii_of_nat (nat_of_ascii c + 32)
  else c.

Fixpoint toLowerCase (s : string) : string :=
  match s with
  | EmptyString => EmptyString
  | String c rest => String (lowerChar c) (toLowerCase rest)
  end.

(** ECMAScript [WhiteSpace] and [LineTerminator] below 256:
    TAB, LF, VT, FF, CR, SP and NBSP. *)
Definition isWhiteSpace (c : ascii) : bool :=
  inRange 9 13 c || (nat_of_ascii c =? 32)%nat || (nat_of_ascii c =? 160)%nat.

Definition isEmpty (s : string) : bool :=
  match s with EmptyString => true | String _ _ => false end.

Fixpoint trimStart (s : string) : string :=
  match s with
  | EmptyString => EmptyString
  | String c rest => if isWhiteSpace c then trimStart rest else s
  end.

Fixpoint trimEnd (s : string) : string :=
  match s with
  | EmptyString => EmptyString
  | String c rest =>
      let t := trimEnd rest in
      if isWhiteSpace c && isEmpty t then EmptyString else String c t
  end.

(** [String.prototype.trim] *)
Definition trim (s : string) : string := trimEnd (trimStart s).

(** Match a literal at the start of [s]; the rest of [s] on success. *)
Fixpoint matchLiteral (lit s : string) : option string :=
  match lit, s with
  | EmptyString, _ => Some s
  | String a lit', String b s' =>
      if Ascii.eqb a b then matchLiteral lit' s' else None
  | String _ _, EmptyString => None
  end.

(** The regular expression [/^https?:\/\//] at position 0: the literal
    [http], then greedily an optional [s], then [://], backtracking to the
    branch without [s] when the greedy one fails. *)
Definition matchScheme (s : string) : option string :=
  match matchLiteral "http" s with
  | None => None
  | Some r =>
      let greedy :=
        match matchLiteral "s" r with
        | Some r' => matchLiteral "://" r'
        | None => None
        end in
      match greedy with
      | Some rest => Some rest
      | None => matchLiteral "://" r
      end
  end.

(** [.replace(/^https?:\/\//, '')] *)
Definition replaceScheme (s : string) : string :=
  match matchScheme s with
  | Some rest => rest
  | None => s
  end.

(** [/\/+$/] matched at the start of [s]: one or more slashes up to the end
    of the input. *)
Fixpoint matchSlashesToEnd (s : string) : bool :=
  match s with
  | EmptyString => false
  | String c rest =>
      Ascii.eqb c "/" && (isEmpty rest || matchSlashesToEnd rest)
  end.

(** [.replace(/\/+$/, '')]: the regular expression is tried at each position
    from the left; the first match is deleted, and it reaches the end. *)
Fixpoint replaceTrailingSlashes (s : string) : string :=
  match s with
  | EmptyString => EmptyString
  | String c rest =>
      if matchSlashesToEnd s then EmptyString
      else String c (replaceTrailingSlashes rest)
  end.

(** The expression bound to [normalizedUrl] in [POST]. *)
Definition normalizeUrl (target_url : string) : string :=
  replaceTrailingSlashes (replaceScheme (trim (toLowerCase target_url))).

(** Truthiness of a value that is a string, [null] or [undefined]. *)
Definition truthy (v : option string) : bool :=
  match v with
  | Some s => negb (isEmpty s)
  | None => false
  end.

(** [a || b] on such values. *)
Definition orElse (a b : option string) : option string :=
  if truthy a then a else b.

(** [!!v] on a value that is an object or [null]. *)
Definition toBoolean {A} (v : option A) : bool :=
  match v with
  | Some _ => true
  | None => false
  end.

(** [s.split(',')[0]]: the part of [s] before its first comma. *)
Fixpoint firstSegment (s : string) : string :=
  match s with
  | EmptyString => EmptyString
  | String c rest =>
      if Ascii.eqb c "," then EmptyString else String c (firstSegment rest)
  end.

End Js.

(** The normalisation as the specification words it, on lists of
    characters and with the list library's functions. *)

Module UrlSpec.

Fixpoint dropWhile {A} (p : A → bool) (l : list A) : list A :=
  match l with
  | [] => []
  | x :: l' => if p x then dropWhile p l' else l
  end.

Definition dropWhileEnd {A} (p : A → bool) (l : list A) : list A :=
  rev (dropWhile p (rev l)).

Definition lowercase (l : list ascii) : list ascii := map Js.lowerChar l.

Definition trimSurrounding (l : list ascii) : list ascii :=
  dropWhileEnd Js.isWhiteSpace (dropWhile Js.isWhiteSpace l).

Definition startsWith (p l : list ascii) : bool :=
  bool_decide (firstn (length p) l = p).

Definition stripScheme (l : list ascii) : list ascii :=
  if startsWith (list_ascii_of_string "http://") l then skipn 7 l
  else if startsWith (list_ascii_of_string "https://") l then skipn 8 l
  else l.

Definition stripTrailingSlashes (l : list ascii) : list ascii :=
  dropWhileEnd (λ c, Ascii.eqb c "/") l.

Definition normalize (s : string) : string :=
  string_of_list_ascii
    (stripTrailingSlashes
       (stripScheme (trimSurrounding (lowercase (list_ascii_of_string s))))).

End UrlSpec.

(** ** The persistence layer

    The three tables the route touches, as the rows each one holds in the
    order the store enumerates them.  The queries of [route.ts] give no
    [orderBy], so this order is the store's own and is left arbitrary. *)

Module ChapterLink.
Record t : Type := mk {
  id : string;
  series_id : string;
  url : string;
  url_normalized : string;
  status : string;
  deleted_at : option Z;
  submitted_by : option string
}.
End ChapterLink.

(** The [select] of both link queries: [{ id, series_id, url, submitted_by }]. *)
Module LinkRef.
Record t : Type := mk {
  id : string;
  series_id : string;
  url : string;
  submitted_by : option string
}.
End LinkRef.

Module DmcaRequest.
Record t : Type := mk {
  id : string;
  requester_contact : string;
  requester_name : option string;
  requester_company : option string;
  target_url : option string;
  target_link_id : option string;
  target_series_id : option string;
  work_title : string;
  claim_details : string;
  status : string;
  created_at : Z;
  resolved_at : option Z;
  resolution_note : option string
}.
End DmcaRequest.

(** The [select] of the status query. *)
Module PublicView.
Record t : Type := mk {
  id : string;
  status : string;
  work_title : string;
  target_url : option string;
  created_at : Z;
  resolved_at : option Z;
  resolution_note : option string
}.
End PublicView.

Module Payload.
Record t : Type := mk {
  dmca_request_id : string;
  requester_contact : string;
  work_title : string;
  reason : string
}.
End Payload.

Module Audit.
Record t : Type := mk {
  chapter_link_id : string;
  action : string;
  actor_ip : string;
  payload : Payload.t
}.
End Audit.

Module Db.

Record t : Type := mk {
  chapterLink : list ChapterLink.t;
  dmcaRequest : list DmcaRequest.t;
  linkSubmissionAudit : list Audit.t
}.

(** The store calls of the route, one per call site. *)
Inductive Op : Type :=
| LinkFindFirst
| LinkFindUnique
| RequestCreate
| TxLinkUpdate
| TxAuditCreate
| TxCommit
| RequestUpdate
| RequestFindFirst.

(** What a request sees of its surroundings: the two clock readings, the id
    and timestamp the store gives a new claim, and which store calls are
    rejected. *)
Record Env : Type := mkEnv {
  date_now : Z;          (* [Date.now()] in [checkRateLimit] *)
  new_date : Z;          (* [new Date()] in the transaction *)
  generated_id : string; (* the default of [dmcaRequest.id] *)
  store_clock : Z;       (* the default of [dmcaRequest.created_at] *)
  rejects : Op → bool
}.

(** An awaited call either yields a value or throws; the table state it
    leaves behind is kept in both cases. *)
Inductive Outcome (A : Type) : Type :=
| Ok (a : A)
| Thrown.
Arguments Ok {A} a.
Arguments Thrown {A}.

Definition M (A : Type) : Type := t → Outcome A * t.

Definition ret {A} (a : A) : M A := λ db, (Ok a, db).

Definition bind {A B} (m : M A) (k : A → M B) : M B :=
  λ db,
    match m db with
    | (Ok a, db1) => k a db1
    | (Thrown, db1) => (Thrown, db1)
    end.

Definition throw {A} : M A := λ db, (Thrown, db).

(** A store call that the surroundings may reject before it has any effect. *)
Definition call {A} (env : Env) (op : Op) (m : M A) : M A :=
  if rejects env op then throw else m.

(** The three writes, on the tables. *)
Definition insertRequest (row : DmcaRequest.t) (db : t) : t :=
  mk (chapterLink db) (dmcaRequest db ++ [row]) (linkSubmissionAudit db).

Definition insertAudit (entry : Audit.t) (db : t) : t :=
  mk (chapterLink db) (dmcaRequest db) (linkSubmissionAudit db ++ [entry]).

Definition withLinks (rows : list ChapterLink.t) (db : t) : t :=
  mk rows (dmcaRequest db) (linkSubmissionAudit db).

Definition withRequests (rows : list DmcaRequest.t) (db : t) : t :=
  mk (chapterLink db) rows (linkSubmissionAudit db).

Definition select (l : ChapterLink.t) : LinkRef.t :=
  LinkRef.mk (ChapterLink.id l) (ChapterLink.series_id l)
             (ChapterLink.url l) (ChapterLink.submitted_by l).

(** [where: { url_normalized: normalizedUrl, deleted_at: null }] *)
Definition matchesUrl (normalizedUrl : string) (l : ChapterLink.t) : bool :=
  String.eqb (ChapterLink.url_normalized l) normalizedUrl
  && match ChapterLink.deleted_at l with None => true | Some _ => false end.

Definition hasId (i : string) (l : ChapterLink.t) : bool :=
  String.eqb (ChapterLink.id l) i.

(** [prisma.chapterLink.findFirst]: the first matching row the store
    enumerates. *)
Definition findFirstByUrl (rows : list ChapterLink.t) (normalizedUrl : string)
    : option LinkRef.t :=
  select <$> List.find (matchesUrl normalizedUrl) rows.

Definition linkFindFirst (env : Env) (normalizedUrl : string)
    : M (option LinkRef.t) :=
  call env LinkFindFirst
    (λ db, (Ok (findFirstByUrl (chapterLink db) normalizedUrl), db)).

(** [prisma.chapterLink.findUnique({ where: { id } })] *)
Definition linkById (rows : list ChapterLink.t) (i : string)
    : option ChapterLink.t :=
  List.find (hasId i) rows.

Definition linkFindUnique (env : Env) (i : string) : M (option LinkRef.t) :=
  call env LinkFindUnique
    (λ db, (Ok (select <$> linkById (chapterLink db) i), db)).

Definition requestById (rows : list DmcaRequest.t) (i : string)
    : option DmcaRequest.t :=
  List.find (λ r, String.eqb (DmcaRequest.id r) i) rows.

(** [prisma.dmcaRequest.create]: the store fills in [id] and [created_at];
    the primary key rejects an id that is already taken. *)
Definition requestCreate (env : Env)
    (fields : string → Z → DmcaRequest.t) : M DmcaRequest.t :=
  call env RequestCreate
    (λ db,
       let row := fields (generated_id env) (store_clock env) in
       match requestById (dmcaRequest db) (DmcaRequest.id row) with
       | Some _ => (Thrown, db)
       | None => (Ok row, insertRequest row db)
       end).

Definition setRemoved (deleted : Z) (l : ChapterLink.t) : ChapterLink.t :=
  ChapterLink.mk (ChapterLink.id l) (ChapterLink.series_id l)
    (ChapterLink.url l) (ChapterLink.url_normalized l)
    "removed" (Some deleted) (ChapterLink.submitted_by l).

Definition updateLinks (i : string) (deleted : Z)
    (rows : list ChapterLink.t) : list ChapterLink.t :=
  map (λ l, if hasId i l then setRemoved deleted l else l) rows.

(** [tx.chapterLink.update({ where: { id }, data: { status: 'removed',
    deleted_at: new Date() } })]; [update] throws when no row has the id. *)
Definition linkUpdate (env : Env) (i : string) : M unit :=
  call env TxLinkUpdate
    (λ db,
       match linkById (chapterLink db) i with
       | None => (Thrown, db)
       | Some _ =>
           (Ok tt, withLinks (updateLinks i (new_date env) (chapterLink db)) db)
       end).

(** [tx.linkSubmissionAudit.create] *)
Definition auditCreate (env : Env) (entry : Audit.t) : M unit :=
  call env TxAuditCreate
    (λ db, (Ok tt, insertAudit entry db)).

(** [prisma.$transaction(async (tx) => ...)]: the writes of the callback
    become visible when it returns and the commit goes through; when the
    callback throws or the commit is rejected the tables are as they were
    when the transaction began, and the call throws. *)
Definition transaction {A} (env : Env) (callback : M A) : M A :=
  λ db,
    match callback db with
    | (Ok a, db1) =>
        if rejects env TxCommit then (Thrown, db) else (Ok a, db1)
    | (Thrown, _) => (Thrown, db)
    end.

Definition setStatus (s : string) (r : DmcaRequest.t) : DmcaRequest.t :=
  DmcaRequest.mk (DmcaRequest.id r) (DmcaRequest.requester_contact r)
    (DmcaRequest.requester_name r) (DmcaRequest.requester_company r)
    (DmcaRequest.target_url r) (DmcaRequest.target_link_id r)
    (DmcaRequest.target_series_id r) (DmcaRequest.work_title r)
    (DmcaRequest.claim_details r) s (DmcaRequest.created_at r)
    (DmcaRequest.resolved_at r) (DmcaRequest.resolution_note r).

Definition updateRequests (i : string) (s : string)
    (rows : list DmcaRequest.t) : list DmcaRequest.t :=
  map (λ r, if String.eqb (DmcaRequest.id r) i then setStatus s r else r) rows.

(** [prisma.dmcaRequest.update({ where: { id }, data: { status } })] *)
Definition requestUpdate (env : Env) (i : string) (s : string) : M unit :=
  call env RequestUpdate
    (λ db,
       match requestById (dmcaRequest db) i with
       | None => (Thrown, db)
       | Some _ =>
           (Ok tt, withRequests (updateRequests i s (dmcaRequest db)) db)
       end).

Definition view (r : DmcaRequest.t) : PublicView.t :=
  PublicView.mk (DmcaRequest.id r) (DmcaRequest.status r)
    (DmcaRequest.work_title r) (DmcaRequest.target_url r)
    (DmcaRequest.created_at r) (DmcaRequest.resolved_at r)
    (DmcaRequest.resolution_note r).

(** [where: { id: requestId, requester_contact: email }] *)
Definition matchesClaim (requestId email : string) (r : DmcaRequest.t) : bool :=
  String.eqb (DmcaRequest.id r) requestId
  && String.eqb (DmcaRequest.requester_contact r) email.

(** [prisma.dmcaRequest.findFirst] of the status query *)
Definition requestFindFirst (env : Env) (requestId email : string)
    : M (option PublicView.t) :=
  call env RequestFindFirst
    (λ db,
       (Ok (view <$> List.find (matchesClaim requestId email) (dmcaRequest db)),
        db)).

(** Referential integrity of the audit trail: the claim id in the payload
    of every entry is the id of a stored claim. *)
Definition auditsReferClaims (d : t) : Prop :=
  Forall (λ a, is_Some (requestById (dmcaRequest d)
                          (Payload.dmca_request_id (Audit.payload a))))
         (linkSubmissionAudit d).

(** The [dmca_remove] entries of an audit trail that refer to the link [l]. *)
Definition removalsOf (l : string) (audits : list Audit.t) : list Audit.t :=
  filter (λ a, Audit.action a = "dmca_remove" ∧ Audit.chapter_link_id a = l)
         audits.

(** Those among them that also refer to the claim [c]. *)
Definition removalEntries (l c : string) (audits : list Audit.t)
    : list Audit.t :=
  filter (λ a, Audit.action a = "dmca_remove"
               ∧ Audit.chapter_link_id a = l
               ∧ Payload.dmca_request_id (Audit.payload a) = c) audits.

End Db.

Notation "'let*' x ':=' c1 'in' c2" := (Db.bind c1 (λ x, c2))
  (at level 10, x pattern, c1 at level 100, c2 at level 200).

(** ** Request bodies and their validation *)

(** A parsed JSON value.  An object is the list of its properties; a key
    occurs once, as in an object that [JSON.parse] built. *)
#[warnings="-register-all"]
Inductive json : Type :=
| JNull
| JBool (b : bool)
| JNumber (literal : string)
| JString (s : string)
| JArray (items : list json)
| JObject (properties : list (string * json)).

Module Submission.
Record t : Type := mk {
  requester_contact : string;
  requester_name : option string;
  requester_company : option string;
  target_url : option string;
  target_link_id : option string;
  work_title : string;
  claim_details : string;
  good_faith_statement : bool;
  accuracy_statement : bool
}.
End Submission.

Module Zod.

(** The three format checks of the validation library, whose definitions
    are the library's own: [.email()], [.url()] and [.uuid()]. *)
Record Formats : Type := mkFormats {
  email : string → bool;
  isUrl : string → bool;
  uuid : string → bool
}.

Fixpoint property (key : string) (properties : list (string * json))
    : option json :=
  match properties with
  | [] => None
  | (k, v) :: rest => if String.eqb k key then Some v else property key rest
  end.

(** [z.string()] with further checks. *)
Definition str (check : string → bool) (v : option json) : option string :=
  match v with
  | Some (JString s) => if check s then Some s else None
  | _ => None
  end.

(** [z.string()....optional()]: an absent property is accepted, [null] and
    other types are not. *)
Definition optionalStr (check : string → bool) (v : option json)
    : option (option string) :=
  match v with
  | None => Some None
  | Some (JString s) => if check s then Some (Some s) else None
  | Some _ => None
  end.

(** [z.boolean().refine(val => val === true)] *)
Definition trueBool (v : option json) : option bool :=
  match v with
  | Some (JBool true) => Some true
  | _ => None
  end.

Definition lengthIn (lo hi : nat) (s : string) : bool :=
  ((lo <=? String.length s) && (String.length s <=? hi))%nat.

Definition maxLength (hi : nat) (s : string) : bool :=
  (String.length s <=? hi)%nat.

End Zod.

(** ** The route handlers *)

Module Route.

(** [dmcaRequestSchema.safeParse(body)]: [Some data] when [success], [None]
    otherwise.  Unknown properties are dropped. *)
Definition dmcaRequestSchema (f : Zod.Formats) (body : json)
    : option Submission.t :=
  match body with
  | JObject ps =>
      let field key := Zod.property key ps in
      match Zod.str (Zod.email f) (field "requester_contact"),
            Zod.optionalStr (Zod.lengthIn 1 200) (field "requester_name"),
            Zod.optionalStr (Zod.maxLength 200) (field "requester_company"),
            Zod.optionalStr (Zod.isUrl f) (field "target_url"),
            Zod.optionalStr (Zod.uuid f) (field "target_link_id"),
            Zod.str (Zod.lengthIn 1 500) (field "work_title"),
            Zod.str (Zod.lengthIn 20 5000) (field "claim_details"),
            Zod.trueBool (field "good_faith_statement"),
            Zod.trueBool (field "accuracy_statement") with
      | Some contact, Some name, Some company, Some turl, Some tid,
        Some title, Some details, Some gf, Some acc =>
          (* [.refine(data => data.target_url || data.target_link_id)] *)
          if Js.truthy (Js.orElse turl tid)
          then Some (Submission.mk contact name company turl tid
                       title details gf acc)
          else None
      | _, _, _, _, _, _, _, _, _ => None
      end
  | _ => None
  end.

(** What [POST] reads of the incoming request: two headers, and the body
    as [request.json()] resolves it, [None] when that call rejects because
    the body is not JSON. *)
Record PostRequest : Type := mkPost {
  x_forwarded_for : option string;
  x_real_ip : option string;
  jsonBody : option json
}.

(** The JSON bodies of the responses.  The [details] of the validation
    response (the library's flattened field errors) are not represented. *)
Inductive Body : Type :=
| ErrorBody (error : string) (message : option string)
| ValidationBody (error : string)
| CreatedBody (success : bool) (message : string) (request_id : string)
    (link_removed : bool)
| FoundBody (request : PublicView.t).

Record Response : Type := mkResponse { status : Z; body : Body }.

(** The state that outlives a request: the module-level [rateLimitMap] and
    the tables. *)
Record State : Type := mkState {
  rateLimitMap : gmap string RateLimit.Entry;
  db : Db.t
}.

(** [headersList.get('x-forwarded-for')?.split(',')[0] ||
     headersList.get('x-real-ip') || 'unknown'] *)
Definition clientIp (request : PostRequest) : string :=
  match Js.orElse
          (Js.orElse (Js.firstSegment <$> x_forwarded_for request)
                     (x_real_ip request))
          (Some "unknown") with
  | Some ip => ip
  | None => "unknown"
  end.

(** [await request.json()] *)
Definition requestJson (request : PostRequest) : Db.M json :=
  match jsonBody request with
  | Some v => Db.ret v
  | None => Db.throw
  end.

(** Target resolution: the [if]/[else if] on [data.target_url] and
    [targetLinkId]; the pair is [(targetLinkId, targetLink)] after it. *)
Definition resolveTarget (env : Db.Env) (data : Submission.t)
    : Db.M (option string * option LinkRef.t) :=
  let targetLinkId := Js.orElse (Submission.target_link_id data) None in
  if Js.truthy (Submission.target_url data) && negb (Js.truthy targetLinkId)
  then
    let normalizedUrl :=
      Js.normalizeUrl (default "" (Submission.target_url data)) in
    let* targetLink := Db.linkFindFirst env normalizedUrl in
    match targetLink with
    | Some l => Db.ret (Some (LinkRef.id l), targetLink)
    | None => Db.ret (targetLinkId, targetLink)
    end
  else if Js.truthy targetLinkId then
    let* targetLink :=
      Db.linkFindUnique env (default "" targetLinkId) in
    Db.ret (targetLinkId, targetLink)
  else Db.ret (targetLinkId, None).

Definition newClaim (data : Submission.t) (targetLinkId : option string)
    (targetLink : option LinkRef.t) (i : string) (created : Z)
    : DmcaRequest.t :=
  DmcaRequest.mk i
    (Submission.requester_contact data)
    (Submission.requester_name data)
    (Submission.requester_company data)
    (Submission.target_url data)
    targetLinkId
    (LinkRef.series_id <$> targetLink)
    (Submission.work_title data)
    (Submission.claim_details data)
    "pending" created None None.

Definition auditEntry (ip : string) (data : Submission.t)
    (targetLink : LinkRef.t) (dmcaRequest : DmcaRequest.t) : Audit.t :=
  Audit.mk (LinkRef.id targetLink) "dmca_remove" ip
    (Payload.mk (DmcaRequest.id dmcaRequest)
       (Submission.requester_contact data)
       (Submission.work_title data)
       "DMCA takedown request").

(** The callback of [prisma.$transaction]. *)
Definition removalCallback (env : Db.Env) (ip : string) (data : Submission.t)
    (targetLink : LinkRef.t) (dmcaRequest : DmcaRequest.t) : Db.M unit :=
  let* _ := Db.linkUpdate env (LinkRef.id targetLink) in
  Db.auditCreate env (auditEntry ip data targetLink dmcaRequest).

(** The [if (targetLink) { ... }] block. *)
Definition removeLink (env : Db.Env) (ip : string) (data : Submission.t)
    (targetLink : option LinkRef.t) (dmcaRequest : DmcaRequest.t)
    : Db.M unit :=
  match targetLink with
  | Some l =>
      let* _ := Db.transaction env (removalCallback env ip data l dmcaRequest) in
      Db.requestUpdate env (DmcaRequest.id dmcaRequest) "processing"
  | None => Db.ret tt
  end.

Definition createdMessage (targetLink : option LinkRef.t) : string :=
  match targetLink with
  | Some _ => "DMCA request received and link has been removed pending review."
  | None =>
      "DMCA request received. Our team will review and take appropriate action."
  end.

(** The part of the [try] block after validation. *)
Definition process (env : Db.Env) (ip : string) (data : Submission.t)
    : Db.M Response :=
  let* resolved := resolveTarget env data in
  let targetLinkId := fst resolved in
  let targetLink := snd resolved in
  let* dmcaRequest :=
    Db.requestCreate env (newClaim data targetLinkId targetLink) in
  let* _ := removeLink env ip data targetLink dmcaRequest in
  Db.ret (mkResponse 201
            (CreatedBody true (createdMessage targetLink)
               (DmcaRequest.id dmcaRequest)
               (Js.toBoolean targetLink))).

(** The part of the [try] block after the rate-limit check. *)
Definition handle (f : Zod.Formats) (env : Db.Env) (ip : string)
    (request : PostRequest) : Db.M Response :=
  let* body := requestJson request in
  match dmcaRequestSchema f body with
  | None => Db.ret (mkResponse 400 (ValidationBody "Validation failed"))
  | Some data => process env ip data
  end.

Definition tooManyRequests : Response :=
  mkResponse 429
    (ErrorBody "Too many requests"
       (Some "Please wait before submitting another DMCA request. Maximum 5 requests per hour.")).

Definition internalError : Response :=
  mkResponse 500
    (ErrorBody "Internal server error" (Some "Failed to process DMCA request")).

(** [export async function POST(request)] *)
Definition POST (f : Zod.Formats) (env : Db.Env) (request : PostRequest)
    (st : State) : Response * State :=
  let ip := clientIp request in
  let '(admitted, limits) :=
    RateLimit.checkRateLimit (Db.date_now env) ip (rateLimitMap st) in
  if negb admitted then (tooManyRequests, mkState limits (db st))
  else
    match handle f env ip request (db st) with
    | (Db.Ok response, db1) => (response, mkState limits db1)
    | (Db.Thrown, db1) => (internalError, mkState limits db1)
    end.

(** The rate limiter lets the request through. *)
Definition admits (env : Db.Env) (request : PostRequest) (st : State) : Prop :=
  (RateLimit.checkRateLimit (Db.date_now env) (clientIp request)
     (rateLimitMap st)).1 = true.

Definition missingParameters : Response :=
  mkResponse 400 (ErrorBody "Missing required parameters: id and email" None).

Definition notFound : Response :=
  mkResponse 404 (ErrorBody "Request not found or email does not match" None).

Definition lookupError : Response :=
  mkResponse 500 (ErrorBody "Internal server error" None).

(** [export async function GET(request)], on the two search parameters
    ([None] when the parameter is absent); it only reads the tables. *)
Definition GET (env : Db.Env) (id email : option string) (d : Db.t)
    : Response :=
  if negb (Js.truthy id) || negb (Js.truthy email) then missingParameters
  else
    match Db.requestFindFirst env (default "" id) (default "" email) d with
    | (Db.Ok (Some dmcaRequest), _) => mkResponse 200 (FoundBody dmcaRequest)
    | (Db.Ok None, _) => notFound
    | (Db.Thrown, _) => lookupError
    end.

End Route.

(** ** Concrete data used by the examples below *)

Module Examples.

Definition address : string := "203.0.113.7".

(** Five further calls from [address] inside the window opened at 1000, and
    one from another address in between. *)
Definition burst : list (Z * string) :=
  [(1001, address); (2000, "198.51.100.2"); (5000, address);
   (3601000, address); (10, address); (3601000, address)].

Definition fullTable : gmap string RateLimit.Entry :=
  {[ address := RateLimit.mkEntry 5 3601000 ]}.

(** Stand-ins for the validation library's format checks. *)
Fixpoint hasAt (s : string) : bool :=
  match s with
  | EmptyString => false
  | String c rest => Ascii.eqb c "@" || hasAt rest
  end.

Definition formats : Zod.Formats :=
  Zod.mkFormats hasAt
    (λ s, Js.toBoolean (Js.matchScheme (Js.toLowerCase s)))
    (λ s, (String.length s =? 36)%nat).

Definition linkId : string := "7d3f8a52-0c1e-4b6a-9f2d-5e8c1a4b7d90".

Definition link : ChapterLink.t :=
  ChapterLink.mk linkId "series-1" "https://Example.com/ch/1/"
    "example.com/ch/1" "active" None (Some "user-1").

(** A second live link with the same normalized URL, and an unrelated one. *)
Definition twin : ChapterLink.t :=
  ChapterLink.mk "2b9e6c14-8a37-4d05-b1f8-c46d0e7a3915" "series-2"
    "http://example.com/ch/1" "example.com/ch/1" "active" None None.

Definition other : ChapterLink.t :=
  ChapterLink.mk "f0a1b2c3-d4e5-4f60-8789-a0b1c2d3e4f5" "series-3"
    "https://example.net/x" "example.net/x" "active" None None.

Definition tables : Db.t := Db.mk [link] [] [].

Definition start : Route.State := Route.mkState ∅ tables.

Definition claimFields : list (string * json) :=
  [("requester_contact", JString "a@x.com");
   ("work_title", JString "Book");
   ("claim_details", JString "This chapter reproduces my book.");
   ("good_faith_statement", JBool true);
   ("accuracy_statement", JBool true)].

Definition byUrl (u : string) : Route.PostRequest :=
  Route.mkPost (Some address) None
    (Some (JObject (("target_url", JString u) :: claimFields))).

Definition byId (i : string) : Route.PostRequest :=
  Route.mkPost (Some address) None
    (Some (JObject (("target_link_id", JString i) :: claimFields))).

Definition notJson : Route.PostRequest :=
  Route.mkPost (Some address) None None.

Definition accepting : Db.Op → bool := λ _, false.

(** The audit write is rejected, after the link update went through. *)
Definition auditRejected : Db.Op → bool :=
  λ op, match op with Db.TxAuditCreate => true | _ => false end.

Definition failingEnv : Db.Env :=
  Db.mkEnv 1000 1001 "claim-1" 1002 auditRejected.

Definition claimData (target_url target_link_id : option string)
    : Submission.t :=
  Submission.mk "a@x.com" None None target_url target_link_id
    "Book" "This chapter reproduces my book." true true.

Definition firstEnv : Db.Env :=
  Db.mkEnv 1000 1001 "claim-1" 1002 accepting.

Definition secondEnv : Db.Env :=
  Db.mkEnv 2000 2001 "claim-2" 2002 accepting.

(** The tables after a first takedown of [link] by id. *)
Definition afterFirst : Route.State :=
  snd (Route.POST formats firstEnv (byId linkId) start).

End Examples.

(** ** The session middleware ([updateSession])

    Of the auth client only the outcome of the raced [getUser()] call
    matters to the routing decision; the cookies it copies onto the
    pass-through response are not represented. *)

Module Supabase.

Record User : Type := mkUser {
  id : string;
  app_metadata : option (list (string * json))
}.

(** An awaited [supabase.auth.getUser()]: it resolves to
    [{ data: { user }, ... }], with [user] possibly [null], or rejects. *)
Inductive GetUser : Type :=
| Resolved (user : option User)
| Rejected.

End Supabase.

Module Middleware.

(** [Promise.race([authPromise, timeoutPromise])]: the auth call settles
    first, or the timer resolves the race with [null]. *)
Inductive Race : Type :=
| Settled (auth : Supabase.GetUser)
| TimedOut.

Inductive Response : Type :=
| Next                                   (* [supabaseResponse] *)
| Json (status : Z) (error : string)     (* [{ error }] with a status *)
| Redirect (pathname : string).          (* [NextResponse.redirect(url)] *)

Record UpdateSessionResult : Type := mkResult {
  response : Response;
  user : option Supabase.User
}.

(** [pathname.startsWith(path)] *)
Definition startsWith (pathname path : string) : bool :=
  Js.toBoolean (Js.matchLiteral path pathname).

Definition publicPaths : list string :=
  ["/login"; "/register"; "/forgot-password"; "/reset-password"; "/auth";
   "/onboarding"].

Definition publicApiPaths : list string :=
  ["/api/health"; "/api/auth/check-username"; "/api/auth/lockout";
   "/api/proxy/image"; "/api/proxy/check-url"; "/api/series/"].

(** The [try]/[catch] around the race: [user] stays [null] unless the auth
    call settled first and resolved. *)
Definition raceUser (race : Race) : option Supabase.User :=
  match race with
  | Settled (Supabase.Resolved u) => u
  | Settled Supabase.Rejected => None
  | TimedOut => None
  end.

(** [updateSession(request)], on the race outcome and
    [request.nextUrl.pathname]. *)
Definition updateSession (race : Race) (pathname : string)
    : UpdateSessionResult :=
  let user := raceUser race in
  let isPublicPath := existsb (startsWith pathname) publicPaths in
  let isPublicApiPath := existsb (startsWith pathname) publicApiPaths in
  let isApiPath := startsWith pathname "/api" in
  if negb (Js.toBoolean user) then
    if isApiPath && negb isPublicApiPath then
      mkResult (Json 401 "unauthorized") None
    else if negb isPublicPath && negb isPublicApiPath
            && negb (String.eqb pathname "/") then
      mkResult (Redirect "/login") None
    else mkResult Next user
  else mkResult Next user.

End Middleware.

(** ** The metrics route ([src/app/api/admin/metrics/route.ts]) *)

Module Metrics.

(** [ErrorCodes.UNAUTHORIZED] and [ErrorCodes.FORBIDDEN], whose values are
    declared elsewhere. *)
Inductive ErrorCode : Type := UNAUTHORIZED | FORBIDDEN.

(** What the [try] block can throw: an [ApiError] of its own, or whatever
    an awaited call rejected with. *)
Inductive Error : Type :=
| ApiError (message : string) (statusCode : Z) (code : ErrorCode)
| Rejection.

(** The surroundings of one request; [metrics] is [None] when
    [getMetricsSummary()] rejects. *)
Record Env (Summary : Type) : Type := mkEnv {
  createClient : bool;               (* [false] when it rejects *)
  getUser : Supabase.GetUser;
  getMetricsSummary : option Summary;
  timestamp : string                 (* [new Date().toISOString()] *)
}.
Arguments mkEnv {Summary}.
Arguments createClient {Summary}.
Arguments getUser {Summary}.
Arguments getMetricsSummary {Summary}.
Arguments timestamp {Summary}.

(** The response is the JSON body of the [try] block, or what
    [handleApiError(error)] makes of the error; that function is declared
    elsewhere, so its call is kept as it is. *)
Inductive Response (Summary : Type) : Type :=
| MetricsJson (timestamp : string) (window_ms : Z) (metrics : Summary)
| HandleApiError (error : Error).
Arguments MetricsJson {Summary}.
Arguments HandleApiError {Summary}.

(** [user.app_metadata?.role === 'admin'] *)
Definition isAdmin (user : Supabase.User) : bool :=
  match Supabase.app_metadata user with
  | Some properties =>
      match Zod.property "role" properties with
      | Some (JString role) => String.eqb role "admin"
      | _ => false
      end
  | None => false
  end.

(** The [try] block. *)
Definition body {Summary} (env : Env Summary) : Error + Response Summary :=
  if negb (createClient env) then inl Rejection
  else
    match getUser env with
    | Supabase.Rejected => inl Rejection
    | Supabase.Resolved None =>
        inl (ApiError "Unauthorized" 401 UNAUTHORIZED)
    | Supabase.Resolved (Some user) =>
        if negb (isAdmin user) then
          inl (ApiError "Forbidden: Admin privileges required" 403 FORBIDDEN)
        else
          match getMetricsSummary env with
          | None => inl Rejection
          | Some metrics => inr (MetricsJson (timestamp env) 60000 metrics)
          end
    end.

(** [export async function GET(request)] *)
Definition GET {Summary} (env : Env Summary) : Response Summary :=
  match body env with
  | inr response => response
  | inl error => HandleApiError error
  end.

End Metrics.

(** ** What validation guarantees *)

Module Validated.

(** What an accepted body holds, field by field. *)
Definition accepted (f : Zod.Formats) (ps : list (string * json))
    (data : Submission.t) : Prop :=
  Zod.property "requester_contact" ps
  = Some (JString (Submission.requester_contact data))
  ∧ Zod.email f (Submission.requester_contact data) = true
  ∧ Zod.property "work_title" ps
    = Some (JString (Submission.work_title data))
  ∧ (1 ≤ String.length (Submission.work_title data) ≤ 500)%nat
  ∧ Zod.property "claim_details" ps
    = Some (JString (Submission.claim_details data))
  ∧ (20 ≤ String.length (Submission.claim_details data) ≤ 5000)%nat
  ∧ Zod.property "good_faith_statement" ps = Some (JBool true)
  ∧ Zod.property "accuracy_statement" ps = Some (JBool true)
  ∧ Zod.property "target_url" ps = JString <$> Submission.target_url data
  ∧ Zod.property "target_link_id" ps
    = JString <$> Submission.target_link_id data
  ∧ Zod.property "requester_name" ps
    = JString <$> Submission.requester_name data
  ∧ Zod.property "requester_company" ps
    = JString <$> Submission.requester_company data
  ∧ Js.truthy (Submission.target_url data)
    || Js.truthy (Submission.target_link_id data) = true
  ∧ (∀ u, Submission.target_url data = Some u → Zod.isUrl f u = true)
  ∧ (∀ i, Submission.target_link_id data = Some i → Zod.uuid f i = true)
  ∧ (∀ n, Submission.requester_name data = Some n
          → (1 ≤ String.length n ≤ 200)%nat)
  ∧ (∀ c, Submission.requester_company data = Some c
          → (String.length c ≤ 200)%nat).

End Validated.

(** ** Further concrete data *)

Module Scenarios.

(** The claim table rejects the status update after the removal went
    through. *)
Definition updateRejected : Db.Op → bool :=
  λ op, match op with Db.RequestUpdate => true | _ => false end.

Definition lateFailure : Db.Env :=
  Db.mkEnv 1000 1001 "claim-1" 1002 updateRejected.

(** The claim table rejects the insert. *)
Definition createRejected : Db.Op → bool :=
  λ op, match op with Db.RequestCreate => true | _ => false end.

Definition earlyFailure : Db.Env :=
  Db.mkEnv 1000 1001 "claim-1" 1002 createRejected.

(** A state whose rate table has used up the quota of [Examples.address]. *)
Definition exhausted : Route.State :=
  Route.mkState Examples.fullTable Examples.tables.

(** A body without any target. *)
Definition noTarget : Route.PostRequest :=
  Route.mkPost (Some Examples.address) None
    (Some (JObject Examples.claimFields)).

(** The caller of [exhausted] again, with another first entry in
    [x-forwarded-for]. *)
Definition relabelled : Route.PostRequest :=
  Route.mkPost (Some "192.0.2.99, 203.0.113.7") None
    (Some (JObject (("target_link_id", JString Examples.linkId)
                      :: Examples.claimFields))).

Definition admin : Supabase.User :=
  Supabase.mkUser "user-1" (Some [("role", JString "admin")]).

Definition member : Supabase.User :=
  Supabase.mkUser "user-2" (Some [("role", JString "member")]).

Definition metricsEnv (u : Supabase.User) : Metrics.Env nat :=
  Metrics.mkEnv true (Supabase.Resolved (Some u)) (Some 42%nat)
    "2025-01-01T00:00:00.000Z".

End Scenarios.

(** * Properties *)

(** ** The rate limiter *)

Section RateLimitFacts.
Import RateLimit.
Implicit Types (m : gmap string Entry) (ip : string) (now : Z).

Lemma checkRateLimit_expired now ip m :
  expired now (m !! ip) = true →
  checkRateLimit now ip m
  = (true, <[ip := mkEntry 1 (now + RATE_LIMIT_WINDOW)]> m).
Proof. intros H. unfold checkRateLimit. by rewrite H. Qed.

Lemma checkRateLimit_open now ip m r :
  m !! ip = Some r → now ≤ resetAt r →
  checkRateLimit now ip m
  = if RATE_LIMIT_MAX <=? count r then (false, m)
    else (true, <[ip := mkEntry (count r + 1) (resetAt r)]> m).
Proof.
  intros Hr Hnow. unfold checkRateLimit. rewrite Hr. simpl.
  destruct (Z.ltb_spec (resetAt r) now); [lia | done].
Qed.

Lemma checkRateLimit_other now ip k m :
  k ≠ ip → (checkRateLimit now ip m).2 !! k = m !! k.
Proof.
  intros Hne. unfold checkRateLimit.
  destruct (expired now (m !! ip)); simpl.
  - by rewrite lookup_insert_ne.
  - destruct (m !! ip) as [r|]; [|done].
    destruct (RATE_LIMIT_MAX <=? count r); simpl; [done|].
    by rewrite lookup_insert_ne.
Qed.

Lemma bounded_step now ip m :
  bounded m → bounded (checkRateLimit now ip m).2.
Proof.
  intros Hm. unfold checkRateLimit.
  destruct (expired now (m !! ip)); simpl.
  - apply map_Forall_insert_2; [|done]. simpl. unfold RATE_LIMIT_MAX. lia.
  - destruct (m !! ip) as [r|] eqn:Hr; [|done].
    destruct (Z.leb_spec RATE_LIMIT_MAX (count r)); simpl; [done|].
    apply map_Forall_insert_2; [|done]. simpl. lia.
Qed.

Lemma bounded_run calls : ∀ m, bounded m → bounded (runCalls calls m).2.
Proof.
  induction calls as [|[now ip] calls IH]; intros m Hm; simpl; [done|].
  pose proof (bounded_step now ip m Hm) as Hs.
  destruct (checkRateLimit now ip m) as [ok m1]. simpl in Hs.
  specialize (IH m1 Hs).
  destruct (runCalls calls m1) as [oks m2]. done.
Qed.

(** Inside an open window that has counted [c] admissions, the [i]-th
    further call for the key is admitted exactly when [c + i] is still
    below the maximum. *)
Lemma decisions_open ip calls : ∀ m c r,
  m !! ip = Some (mkEntry c r) →
  Forall (λ call, snd call = ip → fst call ≤ r) calls →
  decisionsFor ip (runCalls calls m).1
  = (λ i : nat, c + Z.of_nat i <? RATE_LIMIT_MAX)
      <$> seq 0 (length (callsFor ip calls)).
Proof.
  induction calls as [|[now k] calls IH]; intros m c r Hm Hin; [done|].
  apply Forall_cons in Hin as [Hnow Hin]. simpl in Hnow.
  unfold callsFor. rewrite filter_cons. cbn [runCalls fst snd].
  destruct (decide (k = ip)) as [->|Hne].
  - rewrite (checkRateLimit_open now ip m _ Hm) by (simpl; auto).
    cbn [count resetAt length seq]. rewrite fmap_cons.
    rewrite <- fmap_S_seq, <- list_fmap_compose.
    destruct (Z.leb_spec RATE_LIMIT_MAX c) as [Hfull|Hroom].
    + specialize (IH m c r Hm Hin).
      destruct (runCalls calls m) as [oks m2]. cbn [fst snd] in *.
      unfold decisionsFor in *. rewrite filter_cons. cbn [fst].
      rewrite decide_True by done. rewrite fmap_cons. cbn [snd]. f_equal.
      * symmetry. apply Z.ltb_ge. lia.
      * etrans; [exact IH|].
        apply list_fmap_ext. intros _ i _. cbn.
        destruct (Z.ltb_spec (c + Z.of_nat i) RATE_LIMIT_MAX),
                 (Z.ltb_spec (c + Z.of_nat (S i)) RATE_LIMIT_MAX);
          lia || done.
    + specialize (IH (<[ip:=mkEntry (c + 1) r]> m) (c + 1) r).
      rewrite lookup_insert_eq in IH. specialize (IH eq_refl Hin).
      destruct (runCalls calls _) as [oks m2]. cbn [fst snd] in *.
      unfold decisionsFor in *. rewrite filter_cons. cbn [fst].
      rewrite decide_True by done. rewrite fmap_cons. cbn [snd]. f_equal.
      * symmetry. apply Z.ltb_lt. lia.
      * etrans; [exact IH|].
        apply list_fmap_ext. intros _ i _. cbn. f_equal. lia.
  - pose proof (checkRateLimit_other now k ip m) as Hother.
    destruct (checkRateLimit now k m) as [ok m1]. simpl in Hother.
    specialize (IH m1 c r). rewrite Hother in IH by done.
    specialize (IH Hm Hin).
    destruct (runCalls calls m1) as [oks m2]. cbn [fst snd] in *.
    unfold decisionsFor in *. rewrite filter_cons. cbn [fst].
    rewrite decide_False by done. done.
Qed.


(** C4. A call that finds no record for its key, or a record whose window
    has elapsed, stores count 1 and the reset time [now + RATE_LIMIT_WINDOW]
    and is admitted; of the calls made for that key up to the reset time,
    this one included, the first [RATE_LIMIT_MAX] = 5 are admitted and every
    later one is denied, whatever calls for other keys come in between. *)
Theorem rate_limit_window m ip t0 (calls : list (Z * string)) :
  expired t0 (m !! ip) = true →
  Forall (λ call, snd call = ip → fst call ≤ t0 + RATE_LIMIT_WINDOW) calls →
  checkRateLimit t0 ip m
  = (true, <[ip := mkEntry 1 (t0 + RATE_LIMIT_WINDOW)]> m)
  ∧ decisionsFor ip (runCalls ((t0, ip) :: calls) m).1
    = (λ i : nat, Z.of_nat i <? 5) <$> seq 0 (S (length (callsFor ip calls))).
Proof.
  intros Hexp Hin. split; [by apply checkRateLimit_expired|].
  cbn [runCalls]. rewrite checkRateLimit_expired by done.
  pose proof (decisions_open ip calls
                (<[ip := mkEntry 1 (t0 + RATE_LIMIT_WINDOW)]> m) 1
                (t0 + RATE_LIMIT_WINDOW)) as Hopen.
  rewrite lookup_insert_eq in Hopen. specialize (Hopen eq_refl Hin).
  destruct (runCalls calls _) as [oks m2]. cbn [fst snd] in *.
  unfold decisionsFor in *. rewrite filter_cons. cbn [fst].
  rewrite decide_True by done. rewrite fmap_cons. cbn [snd seq].
  rewrite fmap_cons. f_equal.
  rewrite Hopen, <- fmap_S_seq, <- list_fmap_compose.
  apply list_fmap_ext. intros _ i _. cbn. unfold RATE_LIMIT_MAX.
  destruct (Z.ltb_spec (1 + Z.of_nat i) 5), (Z.ltb_spec (Z.of_nat (S i)) 5);
    lia || done.
Qed.

Lemma rate_limit_window_witness :
  expired 1000 ((∅ : gmap string Entry) !! Examples.address) = true
  ∧ Forall (λ call, snd call = Examples.address
                    → fst call ≤ 1000 + RATE_LIMIT_WINDOW) Examples.burst
  ∧ decisionsFor Examples.address
      (runCalls ((1000, Examples.address) :: Examples.burst) ∅).1
    = [true; true; true; true; true; false].
Proof.
  assert (H1 : expired 1000 ((∅ : gmap string Entry) !! Examples.address)
               = true) by reflexivity.
  assert (H2 : Forall (λ call, snd call = Examples.address
                               → fst call ≤ 1000 + RATE_LIMIT_WINDOW)
                 Examples.burst).
  { unfold Examples.burst, RATE_LIMIT_WINDOW.
    repeat constructor; simpl; intros; lia. }
  split; [exact H1|]. split; [exact H2|].
  exact (proj2 (rate_limit_window ∅ Examples.address 1000 Examples.burst H1 H2)).
Defined.

(** C9. No stored count exceeds [RATE_LIMIT_MAX] = 5: the bound holds of
    the table after a call whenever it held before it. *)
Theorem rate_limit_count_bounded now ip m :
  bounded m → bounded (checkRateLimit now ip m).2.
Proof. apply bounded_step. Qed.

Lemma rate_limit_count_bounded_witness :
  bounded Examples.fullTable
  ∧ bounded (checkRateLimit 2000 Examples.address Examples.fullTable).2.
Proof.
  assert (H : bounded Examples.fullTable).
  { apply map_Forall_singleton. simpl. unfold RATE_LIMIT_MAX. lia. }
  split; [exact H|].
  exact (rate_limit_count_bounded 2000 Examples.address Examples.fullTable H).
Defined.

(** The bound holds of the empty table, hence of every table the handler
    can reach. *)
Lemma bounded_reachable calls : bounded (runCalls calls ∅).2.
Proof. apply bounded_run, map_Forall_empty. Qed.

End RateLimitFacts.

(** ** The URL normalisation *)

Section UrlFacts.
Import UrlSpec.

Lemma dropWhile_app {A} (p : A → bool) (a b : list A) :
  dropWhile p (a ++ b)%list
  = match dropWhile p a with
    | [] => dropWhile p b
    | t => (t ++ b)%list
    end.
Proof.
  induction a as [|x a IH]; cbn; [done|]. by destruct (p x).
Qed.

Lemma dropWhileEnd_cons {A} (p : A → bool) (x : A) (l : list A) :
  dropWhileEnd p (x :: l)
  = match dropWhileEnd p l with
    | [] => if p x then [] else [x]
    | t => x :: t
    end.
Proof.
  unfold dropWhileEnd. cbn [rev]. rewrite dropWhile_app.
  destruct (dropWhile p (rev l)) as [|y t] eqn:E; cbn [rev].
  - cbn. by destruct (p x).
  - rewrite <- app_comm_cons. cbn [rev]. rewrite rev_app_distr. cbn.
    destruct (rev t ++ [y])%list eqn:E'; [by destruct (rev t)|done].
Qed.

Lemma isEmpty_list s :
  Js.isEmpty s = match list_ascii_of_string s with [] => true | _ => false end.
Proof. by destruct s. Qed.

Lemma toLowerCase_list s :
  list_ascii_of_string (Js.toLowerCase s) = lowercase (list_ascii_of_string s).
Proof. induction s as [|c s IH]; cbn; [done|]. by rewrite IH. Qed.

Lemma trimStart_list s :
  list_ascii_of_string (Js.trimStart s)
  = dropWhile Js.isWhiteSpace (list_ascii_of_string s).
Proof.
  induction s as [|c s IH]; cbn; [done|]. by destruct (Js.isWhiteSpace c).
Qed.

Lemma trimEnd_list s :
  list_ascii_of_string (Js.trimEnd s)
  = dropWhileEnd Js.isWhiteSpace (list_ascii_of_string s).
Proof.
  induction s as [|c s IH]; [done|].
  cbn [Js.trimEnd list_ascii_of_string]. rewrite dropWhileEnd_cons, <- IH.
  rewrite isEmpty_list.
  destruct (list_ascii_of_string (Js.trimEnd s)) eqn:E;
    destruct (Js.isWhiteSpace c); cbn; by rewrite ?E.
Qed.

Lemma matchSlashesToEnd_list s :
  Js.isEmpty s || Js.matchSlashesToEnd s
  = match dropWhileEnd (λ c, Ascii.eqb c "/") (list_ascii_of_string s) with
    | [] => true
    | _ => false
    end.
Proof.
  induction s as [|c s IH]; [done|].
  cbn [Js.isEmpty Js.matchSlashesToEnd list_ascii_of_string orb].
  rewrite IH, dropWhileEnd_cons.
  destruct (dropWhileEnd _ (list_ascii_of_string s));
    destruct (Ascii.eqb c "/"); done.
Qed.

Lemma replaceTrailingSlashes_list s :
  list_ascii_of_string (Js.replaceTrailingSlashes s)
  = stripTrailingSlashes (list_ascii_of_string s).
Proof.
  unfold stripTrailingSlashes.
  induction s as [|c s IH]; [done|].
  cbn [Js.replaceTrailingSlashes Js.matchSlashesToEnd list_ascii_of_string].
  rewrite matchSlashesToEnd_list, dropWhileEnd_cons, <- IH.
  destruct (list_ascii_of_string (Js.replaceTrailingSlashes s)) eqn:E;
    destruct (Ascii.eqb c "/"); cbn; by rewrite ?E.
Qed.

Lemma matchLiteral_Some lit : ∀ s r,
  Js.matchLiteral lit s = Some r ↔ s = lit ++ r.
Proof.
  induction lit as [|a lit IH]; intros s r.
  - change ("" ++ r) with r. cbn. split; congruence.
  - change (String a lit ++ r) with (String a (lit ++ r)). cbn.
    destruct s as [|b s]; [split; congruence|].
    destruct (Ascii.eqb_spec a b) as [->|Hne].
    + rewrite IH. split; congruence.
    + split; congruence.
Qed.

Lemma matchScheme_Some s r :
  Js.matchScheme s = Some r ↔ s = "http://" ++ r ∨ s = "https://" ++ r.
Proof.
  split.
  - unfold Js.matchScheme.
    destruct (Js.matchLiteral "http" s) as [r1|] eqn:E1; [|done].
    apply matchLiteral_Some in E1 as ->.
    destruct (Js.matchLiteral "s" r1) as [r2|] eqn:E2.
    + apply matchLiteral_Some in E2 as ->.
      destruct (Js.matchLiteral "://" r2) as [r3|] eqn:E3.
      * apply matchLiteral_Some in E3 as ->. intros [= ->]. by right.
      * cbn. done.
    + intros E3. apply matchLiteral_Some in E3 as ->. by left.
  - by intros [-> | ->].
Qed.

Lemma startsWith_true (p s : string) :
  startsWith (list_ascii_of_string p) (list_ascii_of_string s) = true →
  ∃ r, s = p ++ r.
Proof.
  unfold startsWith. intros H%bool_decide_eq_true. revert s H.
  induction p as [|a p IH]; intros s H; [by exists s|].
  destruct s as [|b s]; [done|]. cbn in H. injection H as -> H.
  destruct (IH s H) as [r ->]. exists r. reflexivity.
Qed.

Lemma replaceScheme_list s :
  list_ascii_of_string (Js.replaceScheme s)
  = stripScheme (list_ascii_of_string s).
Proof.
  unfold Js.replaceScheme.
  destruct (Js.matchScheme s) as [r|] eqn:E.
  - apply matchScheme_Some in E as [-> | ->]; reflexivity.
  - unfold stripScheme.
    destruct (startsWith (list_ascii_of_string "http://") _) eqn:E1.
    { apply startsWith_true in E1 as [r ->].
      by rewrite (proj2 (matchScheme_Some _ r)) in E by auto. }
    destruct (startsWith (list_ascii_of_string "https://") _) eqn:E2.
    { apply startsWith_true in E2 as [r ->].
      by rewrite (proj2 (matchScheme_Some _ r)) in E by auto. }
    done.
Qed.

Lemma no_upper_case c : Js.inRange 65 90 (Js.lowerChar c) = false.
Proof.
  destruct c as [[] [] [] [] [] [] [] []]; reflexivity.
Qed.

(** C8. The normalisation of [POST] lower-cases its input, trims the
    surrounding white space, removes one leading [http://] or [https://] and
    removes the trailing slashes, in this order;
    [HTTPS://Example.com/Path/] and [example.com/path] have the same
    normal form. *)
Theorem normalizeUrl_steps :
  (∀ s, Js.normalizeUrl s = UrlSpec.normalize s)
  ∧ Js.normalizeUrl "HTTPS://Example.com/Path/"
    = Js.normalizeUrl "example.com/path".
Proof.
  split; [|reflexivity].
  intros s. unfold Js.normalizeUrl, normalize, Js.trim, trimSurrounding.
  rewrite <- toLowerCase_list, <- trimStart_list, <- trimEnd_list,
          <- replaceScheme_list, <- replaceTrailingSlashes_list.
  by rewrite string_of_list_ascii_of_string.
Qed.

End UrlFacts.

(** ** The store calls *)

Section StoreFacts.
Import Db.
Implicit Types (env : Env) (d : t) (i : string).

Lemma call_accepted {A} env op (m : M A) :
  rejects env op = false → call env op m = m.
Proof. intros H. unfold call. by rewrite H. Qed.

Lemma call_rejected {A} env op (m : M A) d :
  rejects env op = true → call env op m d = (Thrown, d).
Proof. intros H. unfold call. by rewrite H. Qed.

Lemma call_reads {A} env op (f : t → A) d :
  (call env op (λ d0, (Ok (f d0), d0)) d).2 = d.
Proof. unfold call, throw. by destruct (rejects env op). Qed.

Lemma find_app_None {A} (p : A → bool) (l1 l2 : list A) :
  List.find p l1 = None → List.find p (l1 ++ l2) = List.find p l2.
Proof.
  induction l1 as [|x l1 IH]; [done|]. cbn. by destruct (p x).
Qed.

Lemma find_app_Some {A} (p : A → bool) (l1 l2 : list A) x :
  List.find p l1 = Some x → List.find p (l1 ++ l2) = Some x.
Proof.
  induction l1 as [|y l1 IH]; [done|]. cbn. by destruct (p y).
Qed.

Lemma find_map_None {A} (p : A → bool) (f : A → A) (l : list A) :
  (∀ x, p (f x) = p x) →
  List.find p l = None → List.find p (map f l) = None.
Proof.
  intros Hf. induction l as [|x l IH]; [done|]. cbn. rewrite Hf.
  by destruct (p x).
Qed.

Lemma filter_none {A} (P : A → Prop) `{∀ x, Decision (P x)} (l : list A) :
  Forall (λ x, ¬ P x) l → filter P l = [].
Proof.
  induction 1 as [|x l Hx _ IH]; [done|]. by rewrite filter_cons_False.
Qed.

Lemma linkById_id rows i l :
  linkById rows i = Some l → ChapterLink.id l = i.
Proof.
  intros H. apply find_some in H as [_ H]. by apply String.eqb_eq in H.
Qed.

Lemma findFirstByUrl_id rows u l :
  findFirstByUrl rows u = Some l → is_Some (linkById rows (LinkRef.id l)).
Proof.
  unfold findFirstByUrl, linkById. intros H.
  destruct (List.find (matchesUrl u) rows) as [row|] eqn:E; [|done].
  injection H as <-. apply find_some in E as [Hin _].
  destruct (List.find (hasId (LinkRef.id (select row))) rows) eqn:E';
    [done|].
  eapply find_none in E'; [|done].
  unfold hasId in E'. cbn in E'. by rewrite String.eqb_refl in E'.
Qed.

(** After the update every row with the id is removed, and the first of
    them is the one a lookup returns. *)
Lemma linkById_updateLinks rows i deleted row :
  linkById rows i = Some row →
  linkById (updateLinks i deleted rows) i = Some (setRemoved deleted row).
Proof.
  unfold linkById, updateLinks.
  induction rows as [|x rows IH]; [done|]. cbn.
  destruct (hasId i x) eqn:E.
  - intros [= ->]. unfold hasId in *. cbn. by rewrite E.
  - rewrite E. done.
Qed.

Lemma linkById_updateLinks_other rows i j deleted :
  i ≠ j → linkById (updateLinks i deleted rows) j = linkById rows j.
Proof.
  intros Hne. unfold linkById, updateLinks.
  induction rows as [|x rows IH]; [done|]. cbn.
  destruct (hasId i x) eqn:E.
  - unfold hasId in *. cbn. apply String.eqb_eq in E.
    destruct (String.eqb_spec (ChapterLink.id x) j); [congruence|done].
  - by rewrite IH.
Qed.

End StoreFacts.

(** ** The handlers *)

Section RouteFacts.
Import Db Route.
Implicit Types (env : Env) (d : t) (data : Submission.t) (ip : string).

Lemma resolveTarget_reads env data d : (resolveTarget env data d).2 = d.
Proof.
  unfold resolveTarget, bind, linkFindFirst, linkFindUnique, call, throw, ret.
  repeat (case_match; simplify_eq/=; try done).
Qed.

Lemma resolveTarget_link env data d tid l :
  (resolveTarget env data d).1 = Ok (tid, Some l) →
  is_Some (linkById (chapterLink d) (LinkRef.id l)).
Proof.
  unfold resolveTarget, bind, linkFindFirst, linkFindUnique, call, throw, ret.
  destruct (Js.truthy (Submission.target_url data) && _).
  - destruct (rejects env LinkFindFirst); [done|].
    destruct (findFirstByUrl _ _) as [l'|] eqn:E; [|done].
    intros [= _ ->]. by eapply findFirstByUrl_id.
  - destruct (Js.truthy _); [|done].
    destruct (rejects env LinkFindUnique); [done|]. cbn.
    destruct (linkById _ _) as [row|] eqn:E; [|done].
    cbn. intros [= _ <-]. cbn. apply linkById_id in E as Hid.
    rewrite Hid. by rewrite E.
Qed.

(** An admitted request with a valid body goes through [process]; what
    [process] throws becomes the generic failure. *)
Lemma POST_valid f env request st body data :
  (RateLimit.checkRateLimit (date_now env) (clientIp request)
     (rateLimitMap st)).1 = true →
  jsonBody request = Some body →
  dmcaRequestSchema f body = Some data →
  POST f env request st
  = let limits :=
      (RateLimit.checkRateLimit (date_now env) (clientIp request)
         (rateLimitMap st)).2 in
    match process env (clientIp request) data (db st) with
    | (Ok response, d1) => (response, mkState limits d1)
    | (Thrown, d1) => (internalError, mkState limits d1)
    end.
Proof.
  intros Hadm Hbody Hvalid. unfold POST.
  destruct (RateLimit.checkRateLimit _ _ _) as [ok limits].
  cbn in Hadm. subst ok. cbn.
  unfold handle, requestJson, bind, ret. rewrite Hbody, Hvalid. done.
Qed.

(** Up to the removal: the target is looked up and the claim is stored. *)
Lemma process_created env ip data d tid target :
  (resolveTarget env data d).1 = Ok (tid, target) →
  rejects env RequestCreate = false →
  requestById (dmcaRequest d) (generated_id env) = None →
  process env ip data d
  = let claim :=
      newClaim data tid target (generated_id env) (store_clock env) in
    match removeLink env ip data target claim (insertRequest claim d) with
    | (Ok _, d2) =>
        (Ok (mkResponse 201
               (CreatedBody true (createdMessage target) (generated_id env)
                  (Js.toBoolean target))), d2)
    | (Thrown, d2) => (Thrown, d2)
    end.
Proof.
  intros Hres Hcreate Hfresh. unfold process, bind.
  pose proof (resolveTarget_reads env data d) as Hd.
  destruct (resolveTarget env data d) as [o d0]. cbn in Hres, Hd. subst.
  cbn [fst snd]. unfold requestCreate. rewrite call_accepted by done.
  cbn [newClaim DmcaRequest.id]. rewrite Hfresh. done.
Qed.

(** The transaction when one of its calls or the commit is rejected. *)
Lemma removal_rejected env ip data l claim d :
  rejects env TxLinkUpdate || rejects env TxAuditCreate
    || rejects env TxCommit = true →
  transaction env (removalCallback env ip data l claim) d = (Thrown, d).
Proof.
  intros H. unfold transaction, removalCallback, bind, linkUpdate,
    auditCreate, call, throw.
  destruct (rejects env TxLinkUpdate); [done|].
  destruct (linkById _ _); [|done].
  destruct (rejects env TxAuditCreate); [done|].
  cbn in H. by rewrite H.
Qed.

(** The transaction when nothing is rejected and the link exists. *)
Lemma removal_committed env ip data l claim d :
  rejects env TxLinkUpdate || rejects env TxAuditCreate
    || rejects env TxCommit = false →
  is_Some (linkById (chapterLink d) (LinkRef.id l)) →
  transaction env (removalCallback env ip data l claim) d
  = (Ok tt,
     insertAudit (auditEntry ip data l claim)
       (withLinks (updateLinks (LinkRef.id l) (new_date env) (chapterLink d))
          d)).
Proof.
  intros H [row Hrow]. unfold transaction, removalCallback, bind, linkUpdate,
    auditCreate, call, throw.
  apply orb_false_elim in H as [H H3]. apply orb_false_elim in H as [H1 H2].
  by rewrite H1, Hrow, H2, H3.
Qed.

Lemma requestById_insert rows claim :
  requestById rows (DmcaRequest.id claim) = None →
  requestById (rows ++ [claim]) (DmcaRequest.id claim) = Some claim.
Proof.
  intros H. unfold requestById in *. rewrite find_app_None by done.
  cbn. by rewrite String.eqb_refl.
Qed.

Lemma requestById_updated rows claim s :
  requestById rows (DmcaRequest.id claim) = None →
  requestById (updateRequests (DmcaRequest.id claim) s (rows ++ [claim]))
    (DmcaRequest.id claim)
  = Some (setStatus s claim).
Proof.
  intros H. unfold requestById, updateRequests in *. rewrite map_app.
  rewrite find_app_None.
  - cbn. by rewrite !String.eqb_refl.
  - apply find_map_None; [|done].
    intros r. by destruct (String.eqb (DmcaRequest.id r) _) eqn:E.
Qed.

(** C3. A valid submission from an admitted caller whose target resolves
    to the link [l], with no store call rejected, a fresh claim id and an
    audit trail that refers to stored claims only, is answered 201 with
    [link_removed: true]; afterwards the link looked up by id has status
    [removed] and the deletion time of the transaction, exactly one
    [dmca_remove] audit entry refers to both the link and the new claim,
    and the claim is stored with status [processing]. *)
Theorem resolved_submission_removes_link f env request st body data tid l :
  let after := POST f env request st in
  admits env request st →
  jsonBody request = Some body →
  dmcaRequestSchema f body = Some data →
  (resolveTarget env data (db st)).1 = Ok (tid, Some l) →
  (∀ op, rejects env op = false) →
  requestById (dmcaRequest (db st)) (generated_id env) = None →
  auditsReferClaims (db st) →
  after.1
  = mkResponse 201
      (CreatedBody true
         "DMCA request received and link has been removed pending review."
         (generated_id env) true)
  ∧ (∃ row, linkById (chapterLink (db after.2)) (LinkRef.id l) = Some row
            ∧ ChapterLink.status row = "removed"
            ∧ ChapterLink.deleted_at row = Some (new_date env))
  ∧ length (removalEntries (LinkRef.id l) (generated_id env)
              (linkSubmissionAudit (db after.2))) = 1%nat
  ∧ (∃ claim, requestById (dmcaRequest (db after.2)) (generated_id env)
              = Some claim
              ∧ DmcaRequest.status claim = "processing").
Proof.
  intros after Hadm Hbody Hvalid Hres Hacc Hfresh Hrefs. subst after.
  rewrite (POST_valid f env request st body data) by done. cbn zeta.
  rewrite (process_created env _ data (db st) tid (Some l)) by auto.
  cbn zeta. unfold removeLink, bind.
  pose proof (resolveTarget_link _ _ _ _ _ Hres) as [row Hrow].
  rewrite removal_committed; [|by rewrite !Hacc|by exists row].
  unfold requestUpdate. rewrite call_accepted by done.
  cbn [insertAudit withLinks insertRequest dmcaRequest chapterLink
       linkSubmissionAudit].
  set (claim := newClaim data tid (Some l) (generated_id env) (store_clock env)).
  change (generated_id env) with (DmcaRequest.id claim) in Hfresh |- *.
  rewrite requestById_insert by done.
  cbn [fst snd db withRequests insertAudit withLinks insertRequest
       dmcaRequest chapterLink linkSubmissionAudit].
  split; [done|]. split; [|split].
  - exists (setRemoved (new_date env) row).
    by rewrite (linkById_updateLinks _ _ _ row).
  - unfold removalEntries. rewrite filter_app.
    rewrite filter_none; [by rewrite filter_cons_True|].
    unfold auditsReferClaims in Hrefs.
    eapply Forall_impl; [exact Hrefs|].
    intros a [c Hc] (_ & _ & Heq). cbn beta in Hc. congruence.
  - exists (setStatus "processing" claim).
    by rewrite requestById_updated.
Qed.

Lemma resolved_submission_removes_link_witness :
  let after :=
    POST Examples.formats Examples.firstEnv
      (Examples.byUrl "https://Example.com/ch/1/") Examples.start in
  after.1
  = mkResponse 201
      (CreatedBody true
         "DMCA request received and link has been removed pending review."
         "claim-1" true)
  ∧ (∃ row, linkById (chapterLink (db after.2)) Examples.linkId = Some row
            ∧ ChapterLink.status row = "removed"
            ∧ ChapterLink.deleted_at row = Some 1001)
  ∧ length (removalEntries Examples.linkId "claim-1"
              (linkSubmissionAudit (db after.2))) = 1%nat
  ∧ (∃ claim, requestById (dmcaRequest (db after.2)) "claim-1" = Some claim
              ∧ DmcaRequest.status claim = "processing").
Proof.
  apply (resolved_submission_removes_link Examples.formats Examples.firstEnv
           (Examples.byUrl "https://Example.com/ch/1/") Examples.start
           (JObject (("target_url", JString "https://Example.com/ch/1/")
                       :: Examples.claimFields))
           (Examples.claimData (Some "https://Example.com/ch/1/") None)
           (Some Examples.linkId) (select Examples.link)).
  - reflexivity.
  - reflexivity.
  - reflexivity.
  - reflexivity.
  - intros op. reflexivity.
  - reflexivity.
  - constructor.
Defined.

(** C2. Once the claim of a valid, resolved submission is stored, the
    removal is all or nothing.  When the link update, the audit write or
    the commit is rejected, the caller gets the generic 500 response, the
    link rows and the audit trail are those from before the request, and
    the claim stays stored with status [pending].  When none of them is
    rejected, the link rows are the updated ones and the audit trail has
    exactly the one new entry. *)
Theorem removal_transaction_atomic f env request st body data tid l :
  let claim :=
    newClaim data tid (Some l) (generated_id env) (store_clock env) in
  let after := POST f env request st in
  admits env request st →
  jsonBody request = Some body →
  dmcaRequestSchema f body = Some data →
  (resolveTarget env data (db st)).1 = Ok (tid, Some l) →
  rejects env RequestCreate = false →
  requestById (dmcaRequest (db st)) (generated_id env) = None →
  if rejects env TxLinkUpdate || rejects env TxAuditCreate
     || rejects env TxCommit
  then
    after.1 = internalError
    ∧ chapterLink (db after.2) = chapterLink (db st)
    ∧ linkSubmissionAudit (db after.2) = linkSubmissionAudit (db st)
    ∧ dmcaRequest (db after.2) = (dmcaRequest (db st) ++ [claim])%list
    ∧ DmcaRequest.status claim = "pending"
  else
    chapterLink (db after.2)
    = updateLinks (LinkRef.id l) (new_date env) (chapterLink (db st))
    ∧ linkSubmissionAudit (db after.2)
      = (linkSubmissionAudit (db st)
         ++ [auditEntry (clientIp request) data l claim])%list.
Proof.
  intros claim after Hadm Hbody Hvalid Hres Hcreate Hfresh. subst after.
  rewrite (POST_valid f env request st body data) by done. cbn zeta.
  rewrite (process_created env _ data (db st) tid (Some l)) by auto.
  cbn zeta. fold claim. unfold removeLink, bind.
  destruct (rejects env TxLinkUpdate || rejects env TxAuditCreate
            || rejects env TxCommit) eqn:Hrej.
  - rewrite removal_rejected by done. done.
  - pose proof (resolveTarget_link _ _ _ _ _ Hres) as [row Hrow].
    rewrite removal_committed; [|done|by exists row].
    unfold requestUpdate, call, throw.
    destruct (rejects env RequestUpdate); [done|].
    cbn [insertAudit withLinks insertRequest dmcaRequest].
    change (generated_id env) with (DmcaRequest.id claim) in Hfresh.
    by rewrite requestById_insert.
Qed.

Lemma removal_transaction_atomic_witness :
  let after :=
    POST Examples.formats Examples.failingEnv
      (Examples.byId Examples.linkId) Examples.start in
  after.1 = internalError
  ∧ chapterLink (db after.2) = [Examples.link]
  ∧ linkSubmissionAudit (db after.2) = []
  ∧ dmcaRequest (db after.2)
    = [newClaim (Examples.claimData None (Some Examples.linkId))
         (Some Examples.linkId) (Some (select Examples.link)) "claim-1" 1002]
  ∧ DmcaRequest.status
      (newClaim (Examples.claimData None (Some Examples.linkId))
         (Some Examples.linkId) (Some (select Examples.link)) "claim-1" 1002)
    = "pending".
Proof.
  apply (removal_transaction_atomic Examples.formats Examples.failingEnv
           (Examples.byId Examples.linkId) Examples.start
           (JObject (("target_link_id", JString Examples.linkId)
                       :: Examples.claimFields))
           (Examples.claimData None (Some Examples.linkId))
           (Some Examples.linkId) (select Examples.link));
    reflexivity.
Defined.

(** C7. A valid submission from an admitted caller whose target does not
    resolve is answered 201 with [link_removed: false]; the link rows and
    the audit trail are unchanged, and the one new row of the claim table
    is the claim, with status [pending]. *)
Theorem unresolved_submission_leaves_links f env request st body data tid :
  let claim := newClaim data tid None (generated_id env) (store_clock env) in
  let after := POST f env request st in
  admits env request st →
  jsonBody request = Some body →
  dmcaRequestSchema f body = Some data →
  (resolveTarget env data (db st)).1 = Ok (tid, None) →
  rejects env RequestCreate = false →
  requestById (dmcaRequest (db st)) (generated_id env) = None →
  after.1
  = mkResponse 201
      (CreatedBody true
         "DMCA request received. Our team will review and take appropriate action."
         (generated_id env) false)
  ∧ chapterLink (db after.2) = chapterLink (db st)
  ∧ linkSubmissionAudit (db after.2) = linkSubmissionAudit (db st)
  ∧ dmcaRequest (db after.2) = (dmcaRequest (db st) ++ [claim])%list
  ∧ requestById (dmcaRequest (db after.2)) (generated_id env) = Some claim
  ∧ DmcaRequest.status claim = "pending".
Proof.
  intros claim after Hadm Hbody Hvalid Hres Hcreate Hfresh. subst after.
  rewrite (POST_valid f env request st body data) by done. cbn zeta.
  rewrite (process_created env _ data (db st) tid None) by auto.
  cbn. fold claim. repeat (split; [done|]). split; [|done].
  by apply (requestById_insert _ claim).
Qed.

Lemma unresolved_submission_leaves_links_witness :
  let after :=
    POST Examples.formats Examples.firstEnv
      (Examples.byUrl "https://example.org/elsewhere") Examples.start in
  let claim :=
    newClaim (Examples.claimData (Some "https://example.org/elsewhere") None)
      None None "claim-1" 1002 in
  after.1
  = mkResponse 201
      (CreatedBody true
         "DMCA request received. Our team will review and take appropriate action."
         "claim-1" false)
  ∧ chapterLink (db after.2) = [Examples.link]
  ∧ linkSubmissionAudit (db after.2) = []
  ∧ dmcaRequest (db after.2) = [claim]
  ∧ requestById (dmcaRequest (db after.2)) "claim-1" = Some claim
  ∧ DmcaRequest.status claim = "pending".
Proof.
  apply (unresolved_submission_leaves_links Examples.formats Examples.firstEnv
           (Examples.byUrl "https://example.org/elsewhere") Examples.start
           (JObject (("target_url", JString "https://example.org/elsewhere")
                       :: Examples.claimFields))
           (Examples.claimData (Some "https://example.org/elsewhere") None)
           None);
    reflexivity.
Defined.

(** C10. An admitted request whose body [request.json()] cannot parse is
    answered with the generic internal error, status 500 and not the 400 of
    a validation failure, and leaves the tables untouched. *)
Theorem unparseable_body_is_internal_error f env request st :
  let after := POST f env request st in
  admits env request st →
  jsonBody request = None →
  after.1 = internalError
  ∧ status after.1 = 500
  ∧ status after.1 ≠ 400
  ∧ db after.2 = db st.
Proof.
  intros after Hadm Hbody. subst after. unfold POST.
  unfold admits in Hadm.
  destruct (RateLimit.checkRateLimit _ _ _) as [ok limits].
  cbn in Hadm. subst ok. cbn.
  unfold handle, requestJson, bind, throw. rewrite Hbody. done.
Qed.

Lemma unparseable_body_is_internal_error_witness :
  let after :=
    POST Examples.formats Examples.firstEnv Examples.notJson Examples.start in
  after.1 = internalError
  ∧ status after.1 = 500
  ∧ status after.1 ≠ 400
  ∧ db after.2 = Examples.tables.
Proof.
  apply (unparseable_body_is_internal_error Examples.formats Examples.firstEnv
           Examples.notJson Examples.start);
    reflexivity.
Defined.

(** A body that parses but does not pass the schema is answered with the
    validation response. *)
Lemma invalid_body_is_validation_error f env request st body :
  admits env request st →
  jsonBody request = Some body →
  dmcaRequestSchema f body = None →
  POST f env request st
  = (mkResponse 400 (ValidationBody "Validation failed"),
     mkState (RateLimit.checkRateLimit (date_now env) (clientIp request)
                (rateLimitMap st)).2 (db st)).
Proof.
  intros Hadm Hbody Hinvalid. unfold POST. unfold admits in Hadm.
  destruct (RateLimit.checkRateLimit _ _ _) as [ok limits].
  cbn in Hadm. subst ok. cbn.
  unfold handle, requestJson, bind, ret. by rewrite Hbody, Hinvalid.
Qed.

End RouteFacts.

(** ** Target resolution *)

Section ResolverFacts.
Import Db Route.

Lemma find_first_split {A} (p : A → bool) (l : list A) x :
  List.find p l = Some x →
  ∃ before after,
    l = (before ++ x :: after)%list ∧ p x = true
    ∧ Forall (λ y, p y = false) before.
Proof.
  induction l as [|y l IH]; [done|]. cbn.
  destruct (p y) eqn:E.
  - intros [= ->]. by exists [], l.
  - intros (before & after & -> & Hx & Hb)%IH.
    exists (y :: before), after. split; [done|]. split; [done|].
    by constructor.
Qed.

Lemma find_None_Forall {A} (p : A → bool) (l : list A) :
  List.find p l = None ↔ Forall (λ y, p y = false) l.
Proof.
  induction l as [|y l IH]; cbn; [by split|].
  destruct (p y) eqn:E.
  - split; [done|]. intros H. apply Forall_cons in H as [H _]. congruence.
  - rewrite IH. split; [by constructor|]. by intros [_ H]%Forall_cons.
Qed.

Lemma findFirstByUrl_live rows u l :
  findFirstByUrl rows u = Some l →
  ∃ row, row ∈ rows ∧ l = select row ∧ ChapterLink.deleted_at row = None.
Proof.
  unfold findFirstByUrl. intros H.
  destruct (List.find (matchesUrl u) rows) as [row|] eqn:E; [|done].
  injection H as <-. apply find_some in E as [Hin Hm].
  exists row. split; [by apply list_elem_of_In|]. split; [done|].
  unfold matchesUrl in Hm. apply andb_true_iff in Hm as [_ Hd].
  by destruct (ChapterLink.deleted_at row).
Qed.

(** The first match does not depend on the order of the rows when any two
    matching rows are equal. *)
Lemma find_permutation {A} (p : A → bool) (l l' : list A) :
  l ≡ₚ l' →
  (∀ a b, a ∈ l → b ∈ l → p a = true → p b = true → a = b) →
  List.find p l' = List.find p l.
Proof.
  induction 1 as [|x l l' Hperm IH|x y l|l l' l'' H1 IH1 H2 IH2];
    intros Hone.
  - done.
  - cbn. destruct (p x); [done|]. apply IH.
    intros a b Ha Hb. apply Hone; by constructor.
  - cbn. destruct (p x) eqn:Ex, (p y) eqn:Ey; try done.
    f_equal. apply Hone; [| |done|done].
    + constructor. constructor.
    + constructor.
  - rewrite IH2, IH1; [done|done|].
    intros a b Ha Hb. apply Hone; by rewrite H1.
Qed.

(** The selected fields of the first match do not depend on the order of
    the rows when all matching rows agree on them. *)
Lemma select_find_permutation {A B} (p : A → bool) (f : A → B)
    (l l' : list A) :
  l ≡ₚ l' →
  (∀ a b, a ∈ l → b ∈ l → p a = true → p b = true → f a = f b) →
  f <$> List.find p l' = f <$> List.find p l.
Proof.
  induction 1 as [|x l l' Hperm IH|x y l|l l' l'' H1 IH1 H2 IH2];
    intros Hone.
  - done.
  - cbn. destruct (p x); [done|]. apply IH.
    intros a b Ha Hb. apply Hone; by constructor.
  - cbn. destruct (p x) eqn:Ex, (p y) eqn:Ey; try done.
    cbn. f_equal. apply Hone; [| |done|done].
    + constructor. constructor.
    + constructor.
  - rewrite IH2, IH1; [done|done|].
    intros a b Ha Hb. apply Hone; by rewrite H1.
Qed.

Lemma matchesUrl_live n row :
  matchesUrl n row = true
  ↔ ChapterLink.url_normalized row = n ∧ ChapterLink.deleted_at row = None.
Proof.
  unfold matchesUrl. rewrite andb_true_iff, String.eqb_eq.
  destruct (ChapterLink.deleted_at row); split; intros [? ?]; done.
Qed.

(** Resolution of a submission that gives a URL and no link id, when the
    lookup is not rejected. *)
Lemma resolveTarget_by_url env data u d :
  Js.truthy (Submission.target_link_id data) = false →
  Submission.target_url data = Some u → u ≠ "" →
  rejects env LinkFindFirst = false →
  (resolveTarget env data d).1
  = Ok (match findFirstByUrl (chapterLink d) (Js.normalizeUrl u) with
        | Some l => (Some (LinkRef.id l), Some l)
        | None => (None, None)
        end).
Proof.
  intros Hid Hu Hne Hacc. unfold resolveTarget, Js.orElse.
  rewrite Hid, Hu.
  assert (Js.truthy (Some u) = true) as -> by (by destruct u).
  cbn [Js.truthy negb andb].
  change (default "" (Some u)) with u.
  unfold bind, linkFindFirst. rewrite call_accepted by done.
  cbn [fst snd]. by destruct (findFirstByUrl _ _).
Qed.

(** C5, as amended.  For a submission that gives a URL and no link id, and
    a lookup the store accepts, resolution returns the first row, in the
    order the store enumerates the link rows, that is not deleted and whose
    normalized URL is the normal form of the submitted URL, together with
    that row's id; it returns nothing exactly when no row matches.  The
    resolved link is the same for every enumeration of the same rows
    exactly when all matching rows select the same link reference. *)
Theorem resolver_selects_first_match env data u d :
  let n := Js.normalizeUrl u in
  let live row :=
    ChapterLink.url_normalized row = n ∧ ChapterLink.deleted_at row = None in
  Js.truthy (Submission.target_link_id data) = false →
  Submission.target_url data = Some u → u ≠ "" →
  rejects env LinkFindFirst = false →
  match (resolveTarget env data d).1 with
  | Ok (tid, Some l) =>
      tid = Some (LinkRef.id l)
      ∧ ∃ before row after,
          chapterLink d = (before ++ row :: after)%list
          ∧ l = select row ∧ live row
          ∧ Forall (λ r, ¬ live r) before
  | Ok (tid, None) =>
      tid = None ∧ Forall (λ r, ¬ live r) (chapterLink d)
  | Thrown => False
  end
  ∧ ((∀ rows', chapterLink d ≡ₚ rows' →
               (resolveTarget env data (withLinks rows' d)).1
               = (resolveTarget env data d).1)
     ↔ (∀ a b, a ∈ chapterLink d → b ∈ chapterLink d →
               live a → live b → select a = select b)).
Proof.
  intros n live Hid Hu Hne Hacc.
  assert (∀ d0, (resolveTarget env data d0).1
                = Ok (match findFirstByUrl (chapterLink d0) n with
                      | Some l => (Some (LinkRef.id l), Some l)
                      | None => (None, None)
                      end)) as Hres.
  { intros d0. by apply resolveTarget_by_url. }
  split.
  - rewrite Hres. unfold findFirstByUrl.
    destruct (List.find (matchesUrl n) (chapterLink d)) as [row|] eqn:E; cbn.
    + split; [done|].
      apply find_first_split in E as (before & after & Hrows & Hm & Hb).
      exists before, row, after. split; [done|]. split; [done|].
      split; [by apply matchesUrl_live|].
      eapply Forall_impl; [exact Hb|]. intros r Hr Hl.
      apply matchesUrl_live in Hl. cbn beta in Hr. congruence.
    + split; [done|]. apply find_None_Forall in E.
      eapply Forall_impl; [exact E|]. intros r Hr Hl.
      apply matchesUrl_live in Hl. cbn beta in Hr. congruence.
  - split.
    + intros Hsame a b Ha Hb La Lb.
      assert (∀ x, x ∈ chapterLink d → live x →
                   (resolveTarget env data d).1
                   = Ok (Some (LinkRef.id (select x)), Some (select x)))
        as Hfirst.
      { intros x Hx Lx.
        apply elem_of_Permutation in Hx as [k Hk].
        rewrite <- (Hsame (x :: k)) by done.
        rewrite Hres. unfold findFirstByUrl. cbn.
        by rewrite (proj2 (matchesUrl_live n x) Lx). }
      pose proof (Hfirst a Ha La) as H1. rewrite (Hfirst b Hb Lb) in H1.
      congruence.
    + intros Hone rows' Hperm. rewrite !Hres. cbn [withLinks chapterLink].
      unfold findFirstByUrl.
      rewrite (select_find_permutation _ select (chapterLink d) rows');
        [done|done|].
      intros a b Ha Hb Ma Mb. apply Hone; try done; by apply matchesUrl_live.
Qed.

Lemma resolver_selects_first_match_witness :
  (resolveTarget Examples.firstEnv
     (Examples.claimData (Some "https://Example.com/ch/1/") None)
     (mk [Examples.other; Examples.link] [] [])).1
  = (resolveTarget Examples.firstEnv
       (Examples.claimData (Some "https://Example.com/ch/1/") None)
       (mk [Examples.link; Examples.other] [] [])).1.
Proof.
  destruct (resolver_selects_first_match Examples.firstEnv
              (Examples.claimData (Some "https://Example.com/ch/1/") None)
              "https://Example.com/ch/1/"
              (mk [Examples.link; Examples.other] [] []))
    as [_ [_ H]]; [reflexivity|reflexivity|discriminate|reflexivity|].
  assert (Hone : ∀ a b,
            a ∈ [Examples.link; Examples.other] →
            b ∈ [Examples.link; Examples.other] →
            ChapterLink.url_normalized a
            = Js.normalizeUrl "https://Example.com/ch/1/"
            ∧ ChapterLink.deleted_at a = None →
            ChapterLink.url_normalized b
            = Js.normalizeUrl "https://Example.com/ch/1/"
            ∧ ChapterLink.deleted_at b = None →
            select a = select b).
  { intros a b Ha Hb La Lb.
    apply elem_of_cons in Ha as [->|Ha]; apply elem_of_cons in Hb as [->|Hb];
      try reflexivity;
      try (apply list_elem_of_singleton in Ha as ->; destruct La as [La _];
           vm_compute in La; discriminate La);
      try (apply list_elem_of_singleton in Hb as ->; destruct Lb as [Lb _];
           vm_compute in Lb; discriminate Lb). }
  exact (H Hone [Examples.other; Examples.link] (perm_swap _ _ _)).
Defined.

(** C5, as stated, is refuted by two live links with one normalized URL:
    the store may enumerate them in either order, and the link that is
    resolved is the one it enumerates first, which in the first order is not
    the one with the lowest id. *)
Lemma resolver_depends_on_row_order :
  [Examples.link; Examples.twin] ≡ₚ [Examples.twin; Examples.link]
  ∧ matchesUrl "example.com/ch/1" Examples.link = true
  ∧ matchesUrl "example.com/ch/1" Examples.twin = true
  ∧ Js.normalizeUrl "https://Example.com/ch/1/" = "example.com/ch/1"
  ∧ (resolveTarget Examples.firstEnv
       (Examples.claimData (Some "https://Example.com/ch/1/") None)
       (mk [Examples.link; Examples.twin] [] [])).1
    = Ok (Some (ChapterLink.id Examples.link), Some (select Examples.link))
  ∧ (resolveTarget Examples.firstEnv
       (Examples.claimData (Some "https://Example.com/ch/1/") None)
       (mk [Examples.twin; Examples.link] [] [])).1
    = Ok (Some (ChapterLink.id Examples.twin), Some (select Examples.twin))
  ∧ select Examples.link ≠ select Examples.twin
  ∧ String.ltb (ChapterLink.id Examples.twin) (ChapterLink.id Examples.link)
    = true.
Proof.
  split; [apply perm_swap|]. repeat (split; [reflexivity|]).
  split; [discriminate|reflexivity].
Qed.

(** Resolution by id returns the row whatever its status and deletion
    time are. *)
Lemma resolveTarget_by_id env data d i row :
  Submission.target_link_id data = Some i → i ≠ "" →
  rejects env LinkFindUnique = false →
  linkById (chapterLink d) i = Some row →
  (resolveTarget env data d).1 = Ok (Some i, Some (select row)).
Proof.
  intros Hid Hne Hacc Hrow. unfold resolveTarget.
  rewrite Hid. unfold Js.orElse.
  assert (Js.truthy (Some i) = true) as Ht by (by destruct i).
  rewrite !Ht. cbn [negb]. rewrite andb_false_r.
  change (default "" (Some i)) with i. unfold bind, linkFindUnique.
  rewrite call_accepted by done. cbn [fst snd]. by rewrite Hrow.
Qed.

(** Resolution through the URL only ever returns a row that is not
    deleted. *)
Lemma resolveTarget_by_url_live env data d tid l :
  Js.truthy (Submission.target_link_id data) = false →
  (resolveTarget env data d).1 = Ok (tid, Some l) →
  ∃ row, row ∈ chapterLink d ∧ l = select row
         ∧ ChapterLink.deleted_at row = None.
Proof.
  intros Hid. unfold resolveTarget, Js.orElse. rewrite Hid. cbn [negb].
  assert (Js.truthy None = false) as -> by done.
  rewrite andb_true_r.
  destruct (Js.truthy (Submission.target_url data)); [|done].
  unfold bind, linkFindFirst, call, throw.
  destruct (rejects env LinkFindFirst); [done|].
  destruct (findFirstByUrl _ _) as [l'|] eqn:E; [|done].
  intros [= _ ->]. by apply findFirstByUrl_live in E.
Qed.

End ResolverFacts.

(** ** Repeated takedowns *)

Section RepeatFacts.
Import Db Route.

(** C1.  A link that a first takedown by id has removed (status
    [removed], deleted at 1001, one [dmca_remove] entry) is removed again by
    a second takedown by the same id: the answer is 201 with
    [link_removed: true], the deletion time is overwritten with 2001, and
    the audit trail holds a second [dmca_remove] entry for the link. *)
Theorem removed_link_removed_again :
  let again :=
    POST Examples.formats Examples.secondEnv (Examples.byId Examples.linkId)
      Examples.afterFirst in
  let state (st : State) :=
    (λ row, (ChapterLink.status row, ChapterLink.deleted_at row))
      <$> linkById (chapterLink (db st)) Examples.linkId in
  let removals (st : State) :=
    length (removalsOf Examples.linkId (linkSubmissionAudit (db st))) in
  state Examples.afterFirst = Some ("removed", Some 1001)
  ∧ removals Examples.afterFirst = 1%nat
  ∧ again.1
    = mkResponse 201
        (CreatedBody true
           "DMCA request received and link has been removed pending review."
           "claim-2" true)
  ∧ state again.2 = Some ("removed", Some 2001)
  ∧ removals again.2 = 2%nat.
Proof. vm_compute. repeat split. Qed.

(** The same repeat through the URL finds no live link and removes
    nothing. *)
Lemma removed_link_not_resolved_by_url :
  let again :=
    POST Examples.formats Examples.secondEnv
      (Examples.byUrl "https://Example.com/ch/1/") Examples.afterFirst in
  again.1
  = mkResponse 201
      (CreatedBody true
         "DMCA request received. Our team will review and take appropriate action."
         "claim-2" false)
  ∧ chapterLink (db again.2) = chapterLink (db Examples.afterFirst)
  ∧ linkSubmissionAudit (db again.2)
    = linkSubmissionAudit (db Examples.afterFirst).
Proof. vm_compute. repeat split. Qed.

End RepeatFacts.

(** ** The status query *)

Section StatusFacts.
Import Db Route.

Lemma no_claim_matches rows requestId email :
  Forall (λ r, DmcaRequest.id r = requestId
               → DmcaRequest.requester_contact r ≠ email) rows →
  List.find (matchesClaim requestId email) rows = None.
Proof.
  intros H. apply find_None_Forall. eapply Forall_impl; [exact H|].
  intros r Hr. cbn beta in *. unfold matchesClaim.
  destruct (String.eqb_spec (DmcaRequest.id r) requestId) as [Hid|]; [|done].
  destruct (String.eqb_spec (DmcaRequest.requester_contact r) email);
    [by destruct (Hr Hid)|done].
Qed.

(** C6. Take tables that hold no claim with the id and tables that hold the
    claim under other contacts only.  The status query answers both with the
    same response, whatever the parameters and the store do; when id and
    contact are non-empty and the store accepts the lookup, that response is
    [notFound], the 404 with the one fixed body. *)
Theorem status_lookup_indistinguishable env requestId email d1 d2 :
  requestById (dmcaRequest d1) requestId = None →
  is_Some (requestById (dmcaRequest d2) requestId) →
  Forall (λ r, DmcaRequest.id r = requestId
               → DmcaRequest.requester_contact r ≠ email)
         (dmcaRequest d2) →
  GET env (Some requestId) (Some email) d1
  = GET env (Some requestId) (Some email) d2
  ∧ (requestId ≠ "" → email ≠ "" →
     rejects env RequestFindFirst = false →
     GET env (Some requestId) (Some email) d1 = notFound
     ∧ GET env (Some requestId) (Some email) d2 = notFound
     ∧ notFound
       = mkResponse 404
           (ErrorBody "Request not found or email does not match" None)).
Proof.
  intros Hnone _ Hother.
  assert (List.find (matchesClaim requestId email) (dmcaRequest d1) = None)
    as Hfind1.
  { apply no_claim_matches. apply find_None_Forall in Hnone.
    eapply Forall_impl; [exact Hnone|]. intros r Hr Heq. cbn beta in Hr.
    by rewrite Heq, String.eqb_refl in Hr. }
  pose proof (no_claim_matches _ _ _ Hother) as Hfind2.
  split.
  - unfold GET, requestFindFirst, call, throw.
    destruct (negb _ || negb _); [done|].
    destruct (rejects env RequestFindFirst); [done|].
    change (default "" (Some requestId)) with requestId.
    change (default "" (Some email)) with email.
    by rewrite Hfind1, Hfind2.
  - intros Hid Hemail Hacc.
    assert (Js.truthy (Some requestId) = true) as Ht1
      by (by destruct requestId).
    assert (Js.truthy (Some email) = true) as Ht2 by (by destruct email).
    unfold GET. rewrite Ht1, Ht2. cbn [negb orb].
    unfold requestFindFirst. rewrite call_accepted by done.
    change (default "" (Some requestId)) with requestId.
    change (default "" (Some email)) with email.
    by rewrite Hfind1, Hfind2.
Qed.

Lemma status_lookup_indistinguishable_witness :
  GET Examples.firstEnv (Some "claim-1") (Some "b@x.com") Examples.tables
  = notFound
  ∧ GET Examples.firstEnv (Some "claim-1") (Some "b@x.com")
      (db Examples.afterFirst)
    = notFound.
Proof.
  assert (H : Forall (λ r, DmcaRequest.id r = "claim-1"
                           → DmcaRequest.requester_contact r ≠ "b@x.com")
                (dmcaRequest (db Examples.afterFirst))).
  { vm_compute. repeat constructor. intros _. discriminate. }
  assert (H0 : is_Some (requestById (dmcaRequest (db Examples.afterFirst))
                          "claim-1")).
  { vm_compute. eexists. reflexivity. }
  destruct (status_lookup_indistinguishable Examples.firstEnv
              "claim-1" "b@x.com" Examples.tables (db Examples.afterFirst)
              eq_refl H0 H)
    as (_ & Hboth).
  destruct Hboth as (H1 & H2 & _); [discriminate|discriminate|reflexivity|].
  split; [exact H1|exact H2].
Defined.

(** With the contact the claim was filed under, the claim is returned. *)
Lemma status_lookup_found env requestId email d r :
  requestId ≠ "" → email ≠ "" →
  rejects env RequestFindFirst = false →
  List.find (matchesClaim requestId email) (dmcaRequest d) = Some r →
  GET env (Some requestId) (Some email) d = mkResponse 200 (FoundBody (view r)).
Proof.
  intros Hid Hemail Hacc Hfind.
  assert (Js.truthy (Some requestId) = true) as Ht1 by (by destruct requestId).
  assert (Js.truthy (Some email) = true) as Ht2 by (by destruct email).
  unfold GET. rewrite Ht1, Ht2. cbn [negb orb].
  unfold requestFindFirst. rewrite call_accepted by done.
  change (default "" (Some requestId)) with requestId.
  change (default "" (Some email)) with email.
  by rewrite Hfind.
Qed.

End StatusFacts.

(** ** Referential integrity of the audit trail *)

Section IntegrityFacts.
Import Db Route.

Lemma requestById_app_is_Some rows row j :
  is_Some (requestById rows j) → is_Some (requestById (rows ++ [row]) j).
Proof.
  intros [r Hr]. exists r. unfold requestById in *. by apply find_app_Some.
Qed.

Lemma requestById_updateRequests_is_Some rows i s j :
  is_Some (requestById rows j) →
  is_Some (requestById (updateRequests i s rows) j).
Proof.
  unfold requestById, updateRequests.
  induction rows as [|r rows IH]; [done|]. cbn.
  destruct (String.eqb (DmcaRequest.id r) i); cbn;
    destruct (String.eqb (DmcaRequest.id r) j); eauto.
Qed.

Lemma refer_insertRequest row d :
  auditsReferClaims d → auditsReferClaims (insertRequest row d).
Proof.
  unfold auditsReferClaims. cbn. intros H.
  eapply Forall_impl; [exact H|]. intros a. apply requestById_app_is_Some.
Qed.

Lemma refer_withLinks rows d :
  auditsReferClaims d → auditsReferClaims (withLinks rows d).
Proof. done. Qed.

Lemma refer_updateRequests i s d :
  auditsReferClaims d →
  auditsReferClaims (withRequests (updateRequests i s (dmcaRequest d)) d).
Proof.
  unfold auditsReferClaims. cbn. intros H.
  eapply Forall_impl; [exact H|]. intros a.
  apply requestById_updateRequests_is_Some.
Qed.

Lemma refer_insertAudit entry d :
  is_Some (requestById (dmcaRequest d)
             (Payload.dmca_request_id (Audit.payload entry))) →
  auditsReferClaims d → auditsReferClaims (insertAudit entry d).
Proof.
  unfold auditsReferClaims. cbn. intros He H.
  apply Forall_app. split; [done|]. by constructor.
Qed.

Lemma refer_removeLink env ip data target claim d :
  is_Some (requestById (dmcaRequest d) (DmcaRequest.id claim)) →
  auditsReferClaims d →
  auditsReferClaims (removeLink env ip data target claim d).2.
Proof.
  intros Hclaim Hd. destruct target as [l|]; [|done].
  unfold removeLink, bind, transaction, removalCallback, bind, linkUpdate,
    auditCreate, requestUpdate, call, throw.
  destruct (rejects env TxLinkUpdate); [done|].
  destruct (linkById _ _); [|done].
  destruct (rejects env TxAuditCreate); [done|].
  destruct (rejects env TxCommit); [done|].
  assert (auditsReferClaims
            (insertAudit (auditEntry ip data l claim)
               (withLinks (updateLinks (LinkRef.id l) (new_date env)
                             (chapterLink d)) d))) as Hd2.
  { by apply refer_insertAudit, refer_withLinks. }
  destruct (rejects env RequestUpdate); [done|].
  destruct (requestById _ _); [|done].
  by apply refer_updateRequests.
Qed.

Lemma refer_process env ip data d :
  auditsReferClaims d → auditsReferClaims (process env ip data d).2.
Proof.
  intros Hd. unfold process, bind.
  pose proof (resolveTarget_reads env data d) as Hread.
  destruct (resolveTarget env data d) as [[[tid target]|] d0];
    cbn in Hread; subst d0; [|done].
  cbn [fst snd]. unfold requestCreate, call, throw.
  destruct (rejects env RequestCreate); [done|].
  destruct (requestById _ _) eqn:Hfresh; [done|].
  set (claim := newClaim data tid target _ _) in *.
  pose proof (refer_removeLink env ip data target claim
                (insertRequest claim d)) as Hrem.
  destruct (removeLink _ _ _ _ _ _) as [[]]; apply Hrem;
    try (by apply refer_insertRequest);
    exists claim; apply (requestById_insert (dmcaRequest d) claim);
    exact Hfresh.
Qed.

(** Every entry of the audit trail refers to a stored claim, before the
    first request and after each one. *)
Lemma refer_POST f env request st :
  auditsReferClaims (db st) →
  auditsReferClaims (db (POST f env request st).2).
Proof.
  intros Hd. unfold POST.
  destruct (RateLimit.checkRateLimit _ _ _) as [[] limits]; [|done]. cbn.
  unfold handle, requestJson, bind, ret, throw.
  destruct (jsonBody request); [|done].
  destruct (dmcaRequestSchema _ _) as [data|]; [|done].
  pose proof (refer_process env (clientIp request) data (db st) Hd) as Hp.
  by destruct (process _ _ _ _) as [[]].
Qed.

End IntegrityFacts.

(** * Further properties of the routes *)

(** ** More on the rate limiter *)

Section RateLimitMore.
Import RateLimit.
Implicit Types (m : gmap string Entry) (ip : string) (now : Z).

(** X1. A call is denied only when the key has a record whose window is still
    open and whose count has reached the maximum, and a denied call leaves
    the table exactly as it was: it neither counts nor extends the window. *)
Theorem rate_limit_denial_keeps_table now ip m m' :
  checkRateLimit now ip m = (false, m') →
  m' = m
  ∧ ∃ r, m !! ip = Some r ∧ now ≤ resetAt r ∧ RATE_LIMIT_MAX ≤ count r.
Proof.
  unfold checkRateLimit, expired.
  destruct (m !! ip) as [r|]; [|done].
  destruct (Z.ltb_spec (resetAt r) now); [done|].
  destruct (Z.leb_spec RATE_LIMIT_MAX (count r)); [|done].
  intros [= <-]. split; [done|]. by exists r.
Qed.

Lemma rate_limit_denial_keeps_table_witness :
  Examples.fullTable = Examples.fullTable
  ∧ ∃ r, Examples.fullTable !! Examples.address = Some r
         ∧ 2000 ≤ resetAt r ∧ RATE_LIMIT_MAX ≤ count r.
Proof.
  apply (rate_limit_denial_keeps_table 2000 Examples.address
           Examples.fullTable Examples.fullTable).
  reflexivity.
Defined.

(** X2. The window ends strictly after [resetAt]: with the quota used up, a
    call at the reset time itself is still denied, and a call one
    millisecond later is admitted and opens a new window with count 1. *)
Theorem rate_limit_window_boundary ip m r :
  m !! ip = Some r →
  RATE_LIMIT_MAX ≤ count r →
  checkRateLimit (resetAt r) ip m = (false, m)
  ∧ checkRateLimit (resetAt r + 1) ip m
    = (true, <[ip := mkEntry 1 (resetAt r + 1 + RATE_LIMIT_WINDOW)]> m).
Proof.
  intros Hr Hfull. split.
  - rewrite (checkRateLimit_open _ _ _ r) by (done || lia).
    by destruct (Z.leb_spec RATE_LIMIT_MAX (count r)); [|lia].
  - apply checkRateLimit_expired. rewrite Hr. cbn. apply Z.ltb_lt. lia.
Qed.

Lemma rate_limit_window_boundary_witness :
  checkRateLimit 3601000 Examples.address Examples.fullTable
  = (false, Examples.fullTable)
  ∧ checkRateLimit (3601000 + 1) Examples.address Examples.fullTable
    = (true, <[Examples.address :=
                 mkEntry 1 (3601000 + 1 + RATE_LIMIT_WINDOW)]>
               Examples.fullTable).
Proof.
  apply (rate_limit_window_boundary Examples.address Examples.fullTable
           (mkEntry 5 3601000)).
  - reflexivity.
  - unfold RATE_LIMIT_MAX. simpl. lia.
Defined.

(** X3. A call for one key leaves the record of every other key untouched, the
    key of the call has a record afterwards, and the table changes only when
    the call is admitted. *)
Theorem rate_limit_keys_kept now ip m :
  (∀ k, k ≠ ip → (checkRateLimit now ip m).2 !! k = m !! k)
  ∧ is_Some ((checkRateLimit now ip m).2 !! ip)
  ∧ ((checkRateLimit now ip m).1 = true ∨ (checkRateLimit now ip m).2 = m).
Proof.
  split; [intros k Hk; by apply checkRateLimit_other|].
  unfold checkRateLimit.
  destruct (expired now (m !! ip)) eqn:E; cbn.
  - rewrite lookup_insert_eq. eauto.
  - destruct (m !! ip) as [r|] eqn:Hr; [|done].
    destruct (RATE_LIMIT_MAX <=? count r); cbn.
    + rewrite Hr. eauto.
    + rewrite lookup_insert_eq. eauto.
Qed.

Lemma rate_limit_keys_kept_witness :
  (checkRateLimit 2000 "198.51.100.2" Examples.fullTable).2
    !! Examples.address
  = Examples.fullTable !! Examples.address.
Proof.
  apply (proj1 (rate_limit_keys_kept 2000 "198.51.100.2" Examples.fullTable)).
  discriminate.
Defined.

(** X4. Inside an open window a call never moves the reset time; it adds one
    to the count when it is admitted and nothing when it is denied. *)
Theorem rate_limit_window_is_fixed now ip m r :
  m !! ip = Some r →
  now ≤ resetAt r →
  ∃ r', (checkRateLimit now ip m).2 !! ip = Some r'
        ∧ resetAt r' = resetAt r
        ∧ count r' = (if (checkRateLimit now ip m).1 then count r + 1
                      else count r).
Proof.
  intros Hr Hnow. rewrite (checkRateLimit_open _ _ _ r) by done.
  destruct (RATE_LIMIT_MAX <=? count r); cbn.
  - by exists r.
  - rewrite lookup_insert_eq. by eexists.
Qed.

Lemma rate_limit_window_is_fixed_witness :
  ∃ r', (checkRateLimit 2000 Examples.address Examples.fullTable).2
          !! Examples.address = Some r'
        ∧ resetAt r' = 3601000
        ∧ count r' = 5.
Proof.
  apply (rate_limit_window_is_fixed 2000 Examples.address Examples.fullTable
           (mkEntry 5 3601000)).
  - reflexivity.
  - simpl. lia.
Defined.

End RateLimitMore.

(** ** The caller's address *)

Section ClientIpFacts.
Import Route.

Lemma truthy_Some_iff s : Js.truthy (Some s) = true ↔ s ≠ "".
Proof. destruct s; cbn; split; done. Qed.

Lemma firstSegment_comma a rest :
  Js.firstSegment a = a →
  Js.firstSegment (a ++ String "," rest) = a.
Proof.
  induction a as [|c a IH].
  - done.
  - change (String c a ++ String "," rest)
      with (String c (a ++ String "," rest)).
    cbn. destruct (Ascii.eqb c ","); [done|].
    intros [= H]. by rewrite IH.
Qed.

(** X5. The address [POST] computes for the caller is never the empty string. *)
Theorem client_ip_never_empty request : clientIp request ≠ "".
Proof.
  unfold clientIp, Js.orElse.
  destruct (Js.truthy (if Js.truthy _ then _ else _)) eqn:E; [|done].
  destruct (if Js.truthy _ then _ else _) as [ip|]; [|done].
  by apply truthy_Some_iff.
Qed.

Lemma client_ip_never_empty_witness : clientIp Examples.notJson ≠ "".
Proof. apply (client_ip_never_empty Examples.notJson). Defined.

(** X6. For a non-empty, comma-free first entry [a] of [x-forwarded-for] the
    address is [a], whatever follows the comma and whatever [x-real-ip] says;
    a header that starts with a comma counts as absent, and without the
    header the address is a non-empty [x-real-ip] or else [unknown]. *)
Theorem client_ip_sources a rest real body :
  Js.firstSegment a = a →
  (a ≠ "" →
   clientIp (mkPost (Some (a ++ String "," rest)) real body) = a
   ∧ clientIp (mkPost (Some a) real body) = a)
  ∧ clientIp (mkPost (Some (String "," rest)) real body)
    = clientIp (mkPost None real body)
  ∧ clientIp (mkPost None real body)
    = match real with
      | Some r => if Js.isEmpty r then "unknown" else r
      | None => "unknown"
      end.
Proof.
  intros Ha. split; [|split].
  - intros Hne. unfold clientIp, Js.orElse. cbn [x_forwarded_for fmap option_fmap option_map].
    rewrite firstSegment_comma, Ha by done.
    apply truthy_Some_iff in Hne. by rewrite !Hne.
  - reflexivity.
  - unfold clientIp, Js.orElse. cbn.
    destruct real as [[|c r]|]; reflexivity.
Qed.

Lemma client_ip_sources_witness :
  clientIp (mkPost (Some ("203.0.113.7" ++ String "," " 10.0.0.1"))
              (Some "10.9.9.9") None) = "203.0.113.7"
  ∧ clientIp (mkPost (Some "203.0.113.7") (Some "10.9.9.9") None)
    = "203.0.113.7".
Proof.
  apply (client_ip_sources "203.0.113.7" " 10.0.0.1" (Some "10.9.9.9") None).
  - reflexivity.
  - discriminate.
Defined.

End ClientIpFacts.

(** ** Every run of [POST] *)

Section RunFacts.
Import Db Route.
Implicit Types (env : Env) (d : t) (data : Submission.t) (ip : string).

Lemma rate_limit_denied_table now ip m m' :
  RateLimit.checkRateLimit now ip m = (false, m') → m' = m.
Proof.
  unfold RateLimit.checkRateLimit.
  destruct (RateLimit.expired now (m !! ip)); [done|].
  destruct (m !! ip) as [r|]; [|by intros [= <-]].
  destruct (RateLimit.RATE_LIMIT_MAX <=? RateLimit.count r); [|done].
  by intros [= <-].
Qed.

(** The tables [process] can leave behind: nothing stored and an exception;
    the claim stored, and then either no removal, or an aborted removal, or a
    committed removal whose status update failed, or all of it. *)
Lemma process_shapes env ip data d :
  process env ip data d = (Thrown, d)
  ∨ ∃ tid target,
      (resolveTarget env data d).1 = Ok (tid, target)
      ∧ requestById (dmcaRequest d) (generated_id env) = None
      ∧ let claim :=
          newClaim data tid target (generated_id env) (store_clock env) in
        let d1 := insertRequest claim d in
        match target with
        | None =>
            process env ip data d
            = (Ok (mkResponse 201
                     (CreatedBody true (createdMessage None)
                        (generated_id env) false)), d1)
        | Some l =>
            let d2 :=
              insertAudit (auditEntry ip data l claim)
                (withLinks
                   (updateLinks (LinkRef.id l) (new_date env) (chapterLink d))
                   d1) in
            process env ip data d = (Thrown, d1)
            ∨ process env ip data d = (Thrown, d2)
            ∨ process env ip data d
              = (Ok (mkResponse 201
                       (CreatedBody true (createdMessage (Some l))
                          (generated_id env) true)),
                 withRequests
                   (updateRequests (generated_id env) "processing"
                      (dmcaRequest d1)) d2)
        end.
Proof.
  destruct (resolveTarget env data d) as [o d0] eqn:Hres.
  pose proof (resolveTarget_reads env data d) as Hread.
  rewrite Hres in Hread. cbn in Hread. subst d0.
  destruct o as [[tid target]|];
    [|left; unfold process, bind; by rewrite Hres].
  destruct (rejects env RequestCreate) eqn:Hcreate.
  { left. unfold process, bind. rewrite Hres. cbn [fst snd].
    unfold requestCreate. by rewrite call_rejected. }
  destruct (requestById (dmcaRequest d) (generated_id env)) eqn:Hfresh.
  { left. unfold process, bind. rewrite Hres. cbn [fst snd].
    unfold requestCreate. rewrite call_accepted by done.
    cbn [newClaim DmcaRequest.id]. by rewrite Hfresh. }
  right. exists tid, target. split; [done|]. split; [done|]. cbn zeta.
  rewrite (process_created env ip data d tid target)
    by (done || by rewrite Hres).
  cbn zeta. destruct target as [l|]; [|done].
  set (claim := newClaim data tid (Some l) _ _).
  unfold removeLink, bind.
  destruct (rejects env TxLinkUpdate || rejects env TxAuditCreate
            || rejects env TxCommit) eqn:Hrej.
  { left. by rewrite removal_rejected. }
  assert (is_Some (linkById (chapterLink (insertRequest claim d))
                     (LinkRef.id l))) as Hlink.
  { apply (resolveTarget_link env data d tid l). by rewrite Hres. }
  rewrite removal_committed by done.
  right. unfold requestUpdate, call, throw.
  destruct (rejects env RequestUpdate); [by left|].
  cbn [insertAudit withLinks insertRequest dmcaRequest].
  change (generated_id env) with (DmcaRequest.id claim) in Hfresh |- *.
  rewrite requestById_insert by done. by right.
Qed.

(** [POST] either turns the caller away, or counts the request and then
    answers from what [handle] did. *)
Lemma POST_shapes f env request st :
  let ip := clientIp request in
  let checked :=
    RateLimit.checkRateLimit (date_now env) ip (rateLimitMap st) in
  (checked.1 = false ∧ POST f env request st = (tooManyRequests, st))
  ∨ (checked.1 = true
     ∧ ((jsonBody request = None
         ∧ POST f env request st
           = (internalError, mkState checked.2 (db st)))
        ∨ (∃ body, jsonBody request = Some body
                   ∧ dmcaRequestSchema f body = None
                   ∧ POST f env request st
                     = (mkResponse 400 (ValidationBody "Validation failed"),
                        mkState checked.2 (db st)))
        ∨ (∃ body data,
             jsonBody request = Some body
             ∧ dmcaRequestSchema f body = Some data
             ∧ POST f env request st
               = (match (process env ip data (db st)).1 with
                  | Ok response => response
                  | Thrown => internalError
                  end,
                  mkState checked.2 (process env ip data (db st)).2)))).
Proof.
  cbn zeta. unfold POST.
  destruct (RateLimit.checkRateLimit _ _ _) as [[] limits] eqn:Hc;
    cbn [fst snd negb].
  - right. split; [done|].
    unfold handle, requestJson, bind, ret, throw.
    destruct (jsonBody request) as [body|]; [|by left].
    right. destruct (dmcaRequestSchema f body) as [data|] eqn:Hs.
    + right. exists body, data. split; [done|]. split; [done|].
      by destruct (process _ _ _ _) as [[]].
    + left. exists body. by rewrite Hs.
  - left. split; [done|].
    apply rate_limit_denied_table in Hc. subst limits. by destruct st.
Qed.

Lemma updateRequests_fresh rows i s :
  requestById rows i = None → updateRequests i s rows = rows.
Proof.
  unfold requestById, updateRequests.
  induction rows as [|r rows IH]; [done|]. cbn.
  destruct (String.eqb (DmcaRequest.id r) i); [done|].
  intros H. by rewrite IH.
Qed.

Lemma updateRequests_last rows claim s :
  requestById rows (DmcaRequest.id claim) = None →
  updateRequests (DmcaRequest.id claim) s (rows ++ [claim])
  = (rows ++ [setStatus s claim])%list.
Proof.
  intros H. unfold updateRequests. rewrite map_app.
  fold (updateRequests (DmcaRequest.id claim) s rows).
  rewrite updateRequests_fresh by done. cbn. by rewrite String.eqb_refl.
Qed.

Lemma updateLinks_rows i deleted rows :
  Forall2 (λ a b, b = a ∨ b = setRemoved deleted a)
          rows (updateLinks i deleted rows).
Proof.
  unfold updateLinks. induction rows as [|r rows IH]; cbn; [constructor|].
  constructor; [|done]. destruct (hasId i r); auto.
Qed.

Lemma same_rows deleted rows :
  Forall2 (λ a b : ChapterLink.t, b = a ∨ b = setRemoved deleted a) rows rows.
Proof. induction rows; constructor; auto. Qed.

(** The tables after [POST] are those before it or those [process] left. *)
Lemma POST_tables f env request st :
  db (POST f env request st).2 = db st
  ∨ ∃ data, db (POST f env request st).2
            = (process env (clientIp request) data (db st)).2.
Proof.
  destruct (POST_shapes f env request st)
    as [[_ ->]|[_ [[_ ->]|[(body & _ & _ & ->)|(body & data & _ & _ & ->)]]]];
    cbn; eauto.
Qed.

(** X7. A request the rate limiter denies is answered 429 and changes neither
    the rate table nor any table of the store. *)
Theorem denied_request_changes_nothing f env request st :
  (RateLimit.checkRateLimit (date_now env) (clientIp request)
     (rateLimitMap st)).1 = false →
  POST f env request st = (tooManyRequests, st)
  ∧ status tooManyRequests = 429.
Proof.
  intros Hden. split; [|done].
  destruct (POST_shapes f env request st) as [[_ H]|[H _]]; [done|].
  cbn zeta in H. congruence.
Qed.

Lemma denied_request_changes_nothing_witness :
  POST Examples.formats Examples.secondEnv
    (Examples.byId Examples.linkId) Scenarios.exhausted
  = (tooManyRequests, Scenarios.exhausted)
  ∧ status tooManyRequests = 429.
Proof.
  apply (denied_request_changes_nothing Examples.formats Examples.secondEnv
           (Examples.byId Examples.linkId) Scenarios.exhausted).
  reflexivity.
Defined.

Lemma process_status env ip data d :
  match (process env ip data d).1 with
  | Ok response => status response = 201
  | Thrown => True
  end.
Proof.
  destruct (process_shapes env ip data d)
    as [->|(tid & [l|] & _ & _ & H)]; [done| |];
    cbn zeta in H; [|by rewrite H].
  by destruct H as [->|[->| ->]].
Qed.

(** X8. A request whose computed address has no record in the rate table is
    admitted and never answered 429, whatever the records of other
    addresses are; the address comes from a request header. *)
Theorem unseen_address_is_admitted f env request st :
  rateLimitMap st !! clientIp request = None →
  admits env request st
  ∧ status (POST f env request st).1 ≠ 429.
Proof.
  intros Hnew.
  assert (admits env request st) as Hadm.
  { unfold admits. rewrite checkRateLimit_expired; [done|by rewrite Hnew]. }
  split; [done|]. unfold admits in Hadm.
  destruct (POST_shapes f env request st)
    as [[H _]|[_ [[_ ->]|[(body & _ & _ & ->)|(body & data & _ & _ & ->)]]]];
    cbn zeta in *; [congruence|done|done|].
  cbn [fst]. pose proof (process_status env (clientIp request) data (db st)).
  destruct (process _ _ _ _).1; cbn; [lia|done].
Qed.

Lemma unseen_address_is_admitted_witness :
  admits Examples.secondEnv Scenarios.relabelled Scenarios.exhausted
  ∧ status (POST Examples.formats Examples.secondEnv Scenarios.relabelled
              Scenarios.exhausted).1 ≠ 429.
Proof.
  apply (unseen_address_is_admitted Examples.formats Examples.secondEnv
           Scenarios.relabelled Scenarios.exhausted).
  reflexivity.
Defined.

(** X9. The rate table after [POST] is the one [checkRateLimit] returns: a
    request is counted before its body is read, so unparseable and invalid
    submissions use up the quota like valid ones. *)
Theorem every_request_is_counted f env request st :
  rateLimitMap (POST f env request st).2
  = (RateLimit.checkRateLimit (date_now env) (clientIp request)
       (rateLimitMap st)).2.
Proof.
  destruct (POST_shapes f env request st)
    as [[H ->]|[_ [[_ ->]|[(body & _ & _ & ->)|(body & data & _ & _ & ->)]]]];
    cbn zeta in *; try done.
  destruct (RateLimit.checkRateLimit _ _ _) as [ok m'] eqn:Hc.
  cbn in H. subst ok. apply rate_limit_denied_table in Hc. by subst.
Qed.

(** X10. Whatever the request and the store do, [POST] leaves the audit trail as
    it was or appends one entry to it; that entry has action [dmca_remove],
    the caller's address, the id of the new claim and the id of a stored
    link. *)
Theorem audit_trail_append_only f env request st :
  let after := POST f env request st in
  linkSubmissionAudit (db after.2) = linkSubmissionAudit (db st)
  ∨ ∃ entry,
      linkSubmissionAudit (db after.2)
      = (linkSubmissionAudit (db st) ++ [entry])%list
      ∧ Audit.action entry = "dmca_remove"
      ∧ Audit.actor_ip entry = clientIp request
      ∧ Payload.dmca_request_id (Audit.payload entry) = generated_id env
      ∧ is_Some (linkById (chapterLink (db st)) (Audit.chapter_link_id entry)).
Proof.
  cbn zeta.
  destruct (POST_tables f env request st) as [->|[data ->]]; [by left|].
  destruct (process_shapes env (clientIp request) data (db st))
    as [->|(tid & [l|] & Hres & _ & H)]; [by left| |];
    cbn zeta in H; [|rewrite H; by left].
  destruct H as [->|[->| ->]]; [by left| |];
    right; eexists; (split; [reflexivity|]); cbn;
    repeat (split; [done|]); by eapply resolveTarget_link.
Qed.

(** X11. Whatever the request and the store do, [POST] leaves the claim table
    as it was or appends one claim whose id was not in use and whose status
    is [pending] or [processing]; no stored claim is changed or deleted. *)
Theorem stored_claims_persist f env request st :
  let after := POST f env request st in
  dmcaRequest (db after.2) = dmcaRequest (db st)
  ∨ ∃ claim,
      dmcaRequest (db after.2) = (dmcaRequest (db st) ++ [claim])%list
      ∧ DmcaRequest.id claim = generated_id env
      ∧ requestById (dmcaRequest (db st)) (generated_id env) = None
      ∧ (DmcaRequest.status claim = "pending"
         ∨ DmcaRequest.status claim = "processing").
Proof.
  cbn zeta.
  destruct (POST_tables f env request st) as [->|[data ->]]; [by left|].
  destruct (process_shapes env (clientIp request) data (db st))
    as [->|(tid & [l|] & Hres & Hfresh & H)]; [by left| |];
    cbn zeta in H; right.
  - destruct H as [->|[->| ->]].
    + eexists. split; [reflexivity|]. cbn. auto.
    + eexists. split; [reflexivity|]. cbn. auto.
    + cbn [snd withRequests insertRequest dmcaRequest].
      set (claim := newClaim data tid (Some l) _ _).
      change (generated_id env) with (DmcaRequest.id claim) in Hfresh |- *.
      rewrite updateRequests_last by done.
      eexists. split; [reflexivity|]. cbn. auto.
  - rewrite H. eexists. split; [reflexivity|]. cbn. auto.
Qed.

(** X12. Whatever the request and the store do, [POST] keeps every link row in
    its place and either leaves it as it is or sets its status to [removed]
    and its deletion time; no row is added, dropped or otherwise edited. *)
Theorem links_only_soft_deleted f env request st :
  Forall2 (λ a b, b = a ∨ b = setRemoved (new_date env) a)
          (chapterLink (db st))
          (chapterLink (db (POST f env request st).2)).
Proof.
  destruct (POST_tables f env request st) as [->|[data ->]];
    [apply same_rows|].
  destruct (process_shapes env (clientIp request) data (db st))
    as [->|(tid & [l|] & Hres & Hfresh & H)]; [apply same_rows| |];
    cbn zeta in H; [|rewrite H; apply same_rows].
  destruct H as [->|[->| ->]]; cbn;
    [apply same_rows|apply updateLinks_rows..].
Qed.

End RunFacts.

Section OutcomeFacts.
Import Db Route.
Implicit Types (env : Env) (d : t) (data : Submission.t) (ip : string).

Lemma resolveTarget_target_id env data d tid l :
  (resolveTarget env data d).1 = Ok (tid, Some l) →
  tid = Some (LinkRef.id l).
Proof.
  unfold resolveTarget, bind, linkFindFirst, linkFindUnique, call, throw, ret.
  destruct (Js.truthy (Submission.target_url data) && _).
  - destruct (rejects env LinkFindFirst); [done|].
    destruct (findFirstByUrl _ _) as [l'|] eqn:E; [|done].
    by intros [= <- ->].
  - destruct (Js.truthy (Js.orElse _ None)) eqn:Ht; [|done].
    destruct (rejects env LinkFindUnique); [done|]. cbn.
    destruct (linkById _ _) as [row|] eqn:E; [|done].
    cbn. intros [= <- <-]. apply linkById_id in E. cbn.
    destruct (Js.orElse _ None) as [i|]; [|done]. cbn in E. by rewrite E.
Qed.

Lemma resolveTarget_no_target env data d tid :
  (resolveTarget env data d).1 = Ok (tid, None) →
  tid = Js.orElse (Submission.target_link_id data) None.
Proof.
  unfold resolveTarget, bind, linkFindFirst, linkFindUnique, call, throw, ret.
  destruct (Js.truthy (Submission.target_url data) && _).
  - destruct (rejects env LinkFindFirst); [done|].
    destruct (findFirstByUrl _ _) as [l'|] eqn:E; [done|]. by intros [= <-].
  - destruct (Js.truthy (Js.orElse _ None)) eqn:Ht; [|by intros [= <-]].
    destruct (rejects env LinkFindUnique); [done|]. cbn.
    destruct (linkById _ _) as [row|] eqn:E; [done|]. by intros [= <-].
Qed.

(** X13. When resolution finds a link, the id it reports is the id of that
    link, which is a stored row; when it finds none, the id is the one the
    submission gave, or [null] when it gave none. *)
Theorem resolved_id_is_link_id env data d tid target :
  (resolveTarget env data d).1 = Ok (tid, target) →
  match target with
  | Some l =>
      tid = Some (LinkRef.id l)
      ∧ ∃ row, row ∈ chapterLink d ∧ l = select row
  | None => tid = Js.orElse (Submission.target_link_id data) None
  end.
Proof.
  intros H. destruct target as [l|]; [|by eapply resolveTarget_no_target].
  split; [by eapply resolveTarget_target_id|].
  revert H.
  unfold resolveTarget, bind, linkFindFirst, linkFindUnique, call, throw, ret.
  destruct (Js.truthy (Submission.target_url data) && _).
  - destruct (rejects env LinkFindFirst); [done|].
    destruct (findFirstByUrl _ _) as [l'|] eqn:E; [|done].
    intros [= _ ->]. apply findFirstByUrl_live in E as (row & ? & ? & _).
    eauto.
  - destruct (Js.truthy (Js.orElse _ None)); [|done].
    destruct (rejects env LinkFindUnique); [done|]. cbn.
    destruct (linkById _ _) as [row|] eqn:E; [|done].
    cbn. intros [= _ <-]. exists row. split; [|done].
    apply find_some in E as [E _]. by apply list_elem_of_In.
Qed.

Lemma resolved_id_is_link_id_witness :
  Some Examples.linkId = Some (LinkRef.id (select Examples.link))
  ∧ ∃ row, row ∈ chapterLink Examples.tables
           ∧ select Examples.link = select row.
Proof.
  apply (resolved_id_is_link_id Examples.firstEnv
           (Examples.claimData (Some "https://Example.com/ch/1/") None)
           Examples.tables (Some Examples.linkId)
           (Some (select Examples.link))).
  reflexivity.
Defined.

(** X14. Every 201 answer tells the truth: [request_id] is the id of a claim
    now stored; with [link_removed: true] that claim is [processing], names
    a link that is now [removed] with the deletion time of this request, and
    has an audit entry; with [link_removed: false] the claim is [pending]
    and links and audit trail are unchanged. *)
Theorem created_response_is_accurate f env request st
    success message rid removed :
  let after := POST f env request st in
  after.1 = mkResponse 201 (CreatedBody success message rid removed) →
  success = true ∧ rid = generated_id env
  ∧ (∃ claim,
       requestById (dmcaRequest (db after.2)) rid = Some claim
       ∧ DmcaRequest.status claim
         = (if removed then "processing" else "pending")
       ∧ if removed then
           ∃ i row,
             DmcaRequest.target_link_id claim = Some i
             ∧ linkById (chapterLink (db after.2)) i = Some row
             ∧ ChapterLink.status row = "removed"
             ∧ ChapterLink.deleted_at row = Some (new_date env)
             ∧ length (removalEntries i rid
                         (linkSubmissionAudit (db after.2))) ≠ 0%nat
         else
           chapterLink (db after.2) = chapterLink (db st)
           ∧ linkSubmissionAudit (db after.2) = linkSubmissionAudit (db st)).
Proof.
  cbn zeta.
  destruct (POST_shapes f env request st)
    as [[_ ->]|[_ [[_ ->]|[(body & _ & _ & ->)|(body & data & _ & _ & ->)]]]];
    [done..|].
  cbn [fst snd db].
  destruct (process_shapes env (clientIp request) data (db st))
    as [->|(tid & [l|] & Hres & Hfresh & H)]; [done| |]; cbn zeta in H.
  - destruct H as [->|[->| ->]]; [done..|].
    cbn [fst snd]. intros [= <- <- <- <-].
    split; [done|]. split; [done|].
    set (claim := newClaim data tid (Some l) _ _).
    change (generated_id env) with (DmcaRequest.id claim) in Hfresh |- *.
    cbn [withRequests insertAudit withLinks insertRequest dmcaRequest
         chapterLink linkSubmissionAudit].
    exists (setStatus "processing" claim).
    rewrite requestById_updated by done.
    split; [done|]. split; [done|].
    pose proof (resolveTarget_link _ _ _ _ _ Hres) as [row Hrow].
    apply resolveTarget_target_id in Hres as ->.
    exists (LinkRef.id l), (setRemoved (new_date env) row).
    split; [done|].
    rewrite (linkById_updateLinks _ _ _ row) by done.
    repeat (split; [done|]).
    unfold removalEntries. rewrite filter_app, length_app.
    rewrite (filter_cons_True _ (auditEntry _ _ _ _)) by done. cbn. lia.
  - rewrite H. cbn [fst snd]. intros [= <- <- <- <-].
    split; [done|]. split; [done|].
    set (claim := newClaim data tid None _ _).
    change (generated_id env) with (DmcaRequest.id claim) in Hfresh |- *.
    exists claim. cbn [insertRequest dmcaRequest chapterLink
                       linkSubmissionAudit].
    by rewrite requestById_insert.
Qed.

Lemma created_response_is_accurate_witness :
  let after :=
    POST Examples.formats Examples.firstEnv
      (Examples.byId Examples.linkId) Examples.start in
  ∃ claim,
    requestById (dmcaRequest (db after.2)) "claim-1" = Some claim
    ∧ DmcaRequest.status claim = "processing"
    ∧ ∃ i row,
        DmcaRequest.target_link_id claim = Some i
        ∧ linkById (chapterLink (db after.2)) i = Some row
        ∧ ChapterLink.status row = "removed"
        ∧ ChapterLink.deleted_at row = Some 1001
        ∧ length (removalEntries i "claim-1"
                    (linkSubmissionAudit (db after.2))) ≠ 0%nat.
Proof.
  apply (created_response_is_accurate Examples.formats Examples.firstEnv
           (Examples.byId Examples.linkId) Examples.start true
           "DMCA request received and link has been removed pending review."
           "claim-1" true).
  reflexivity.
Defined.

End OutcomeFacts.

Section FailureFacts.
Import Db Route.
Implicit Types (env : Env) (d : t) (data : Submission.t) (ip : string).

(** X15. When the link lookup throws, or the claim insert is rejected or meets a
    taken id, a valid submission is answered with the generic 500 and no
    table is changed. *)
Theorem early_failure_stores_nothing f env request st body data :
  admits env request st →
  jsonBody request = Some body →
  dmcaRequestSchema f body = Some data →
  (resolveTarget env data (db st)).1 = Thrown
  ∨ rejects env RequestCreate = true
  ∨ is_Some (requestById (dmcaRequest (db st)) (generated_id env)) →
  (POST f env request st).1 = internalError
  ∧ db (POST f env request st).2 = db st.
Proof.
  intros Hadm Hbody Hvalid Hfail.
  rewrite (POST_valid f env request st body data) by done. cbn zeta.
  assert (process env (clientIp request) data (db st) = (Thrown, db st))
    as ->; [|done].
  unfold process, bind.
  pose proof (resolveTarget_reads env data (db st)) as Hread.
  destruct (resolveTarget env data (db st)) as [[[tid target]|] d0];
    cbn in Hread; subst d0; [|done].
  cbn [fst snd]. unfold requestCreate, call, throw.
  destruct Hfail as [Hfail|[Hfail|[c Hfail]]]; [done| |].
  - by rewrite Hfail.
  - destruct (rejects env RequestCreate); [done|].
    cbn [newClaim DmcaRequest.id]. by rewrite Hfail.
Qed.

Lemma early_failure_stores_nothing_witness :
  (POST Examples.formats Scenarios.earlyFailure
     (Examples.byId Examples.linkId) Examples.start).1 = internalError
  ∧ db (POST Examples.formats Scenarios.earlyFailure
          (Examples.byId Examples.linkId) Examples.start).2
    = Examples.tables.
Proof.
  apply (early_failure_stores_nothing Examples.formats Scenarios.earlyFailure
           (Examples.byId Examples.linkId) Examples.start
           (JObject (("target_link_id", JString Examples.linkId)
                       :: Examples.claimFields))
           (Examples.claimData None (Some Examples.linkId)));
    try reflexivity.
  right. left. reflexivity.
Defined.

(** X16. When the removal commits and the status update that follows it is
    rejected, the caller gets the generic 500 although the link is removed
    and its audit entry is written, and the claim stays [pending]. *)
Theorem status_update_failure_leaves_claim_pending
    f env request st body data tid l :
  let after := POST f env request st in
  let claim :=
    newClaim data tid (Some l) (generated_id env) (store_clock env) in
  admits env request st →
  jsonBody request = Some body →
  dmcaRequestSchema f body = Some data →
  (resolveTarget env data (db st)).1 = Ok (tid, Some l) →
  rejects env RequestCreate = false →
  requestById (dmcaRequest (db st)) (generated_id env) = None →
  rejects env TxLinkUpdate || rejects env TxAuditCreate
    || rejects env TxCommit = false →
  rejects env RequestUpdate = true →
  after.1 = internalError
  ∧ (∃ row, linkById (chapterLink (db after.2)) (LinkRef.id l) = Some row
            ∧ ChapterLink.status row = "removed"
            ∧ ChapterLink.deleted_at row = Some (new_date env))
  ∧ linkSubmissionAudit (db after.2)
    = (linkSubmissionAudit (db st)
       ++ [auditEntry (clientIp request) data l claim])%list
  ∧ requestById (dmcaRequest (db after.2)) (generated_id env) = Some claim
  ∧ DmcaRequest.status claim = "pending".
Proof.
  intros after claim Hadm Hbody Hvalid Hres Hcreate Hfresh Htx Hupd.
  subst after.
  rewrite (POST_valid f env request st body data) by done. cbn zeta.
  rewrite (process_created env _ data (db st) tid (Some l)) by auto.
  cbn zeta. fold claim. unfold removeLink, bind.
  pose proof (resolveTarget_link _ _ _ _ _ Hres) as [row Hrow].
  rewrite removal_committed; [|done|by exists row].
  unfold requestUpdate. rewrite call_rejected by done.
  cbn [fst snd db insertAudit withLinks insertRequest dmcaRequest chapterLink
       linkSubmissionAudit].
  split; [done|]. split; [|split; [done|split; [|done]]].
  - exists (setRemoved (new_date env) row).
    by rewrite (linkById_updateLinks _ _ _ row).
  - by apply (requestById_insert _ claim).
Qed.

Lemma status_update_failure_leaves_claim_pending_witness :
  let after :=
    POST Examples.formats Scenarios.lateFailure
      (Examples.byId Examples.linkId) Examples.start in
  let claim :=
    newClaim (Examples.claimData None (Some Examples.linkId))
      (Some Examples.linkId) (Some (select Examples.link)) "claim-1" 1002 in
  after.1 = internalError
  ∧ (∃ row, linkById (chapterLink (db after.2)) Examples.linkId = Some row
            ∧ ChapterLink.status row = "removed"
            ∧ ChapterLink.deleted_at row = Some 1001)
  ∧ linkSubmissionAudit (db after.2)
    = [auditEntry Examples.address
         (Examples.claimData None (Some Examples.linkId))
         (select Examples.link) claim]
  ∧ requestById (dmcaRequest (db after.2)) "claim-1" = Some claim
  ∧ DmcaRequest.status claim = "pending".
Proof.
  apply (status_update_failure_leaves_claim_pending Examples.formats
           Scenarios.lateFailure (Examples.byId Examples.linkId)
           Examples.start
           (JObject (("target_link_id", JString Examples.linkId)
                       :: Examples.claimFields))
           (Examples.claimData None (Some Examples.linkId))
           (Some Examples.linkId) (select Examples.link));
    reflexivity.
Defined.

(** X17. After a 201 answer the status query, given the [request_id] of the
    answer and the contact of the submission, returns the claim: its status
    ([processing] when the link was removed, [pending] otherwise), the
    title and the URL as submitted, and the creation time. *)
Theorem submitter_can_read_back f env env' request st body data
    success message rid removed :
  let after := POST f env request st in
  jsonBody request = Some body →
  dmcaRequestSchema f body = Some data →
  after.1 = mkResponse 201 (CreatedBody success message rid removed) →
  rid ≠ "" →
  Submission.requester_contact data ≠ "" →
  rejects env' RequestFindFirst = false →
  GET env' (Some rid) (Some (Submission.requester_contact data)) (db after.2)
  = mkResponse 200
      (FoundBody
         (PublicView.mk rid (if removed then "processing" else "pending")
            (Submission.work_title data) (Submission.target_url data)
            (store_clock env) None None)).
Proof.
  cbn zeta. intros Hbody Hvalid Hresp Hrid Hcontact Hacc. revert Hresp.
  destruct (POST_shapes f env request st)
    as [[_ ->]|[_ [[_ ->]|[(b & _ & _ & ->)|(b & data' & Hb & Hv & ->)]]]];
    [done..|].
  assert (data' = data) as -> by congruence.
  cbn [fst snd db].
  assert (∀ rows (claim : DmcaRequest.t),
            requestById rows (DmcaRequest.id claim) = None →
            DmcaRequest.requester_contact claim
            = Submission.requester_contact data →
            List.find (matchesClaim (DmcaRequest.id claim)
                         (Submission.requester_contact data))
              (rows ++ [claim]) = Some claim) as Hlast.
  { intros rows claim Hnone Hc. rewrite find_app_None.
    - cbn. unfold matchesClaim. by rewrite Hc, !String.eqb_refl.
    - unfold requestById in Hnone. apply find_None_Forall in Hnone.
      apply find_None_Forall. eapply Forall_impl; [exact Hnone|].
      intros r Hr. cbn beta in Hr. unfold matchesClaim. by rewrite Hr. }
  destruct (process_shapes env (clientIp request) data (db st))
    as [->|(tid & [l|] & Hres & Hfresh & H)]; [done| |]; cbn zeta in H.
  - destruct H as [->|[->| ->]]; [done..|].
    cbn [fst snd]. intros [= <- <- <- <-].
    set (claim := newClaim data tid (Some l) _ _).
    change (generated_id env) with (DmcaRequest.id claim) in Hfresh |- *.
    cbn [withRequests insertAudit withLinks insertRequest dmcaRequest].
    rewrite updateRequests_last by done.
    apply (status_lookup_found env' _ _ _ (setStatus "processing" claim));
      [done..|].
    by apply (Hlast _ (setStatus "processing" claim)).
  - rewrite H. cbn [fst snd]. intros [= <- <- <- <-].
    set (claim := newClaim data tid None _ _).
    change (generated_id env) with (DmcaRequest.id claim) in Hfresh |- *.
    cbn [insertRequest dmcaRequest].
    apply (status_lookup_found env' _ _ _ claim); [done..|].
    by apply Hlast.
Qed.

Lemma submitter_can_read_back_witness :
  GET Examples.secondEnv (Some "claim-1") (Some "a@x.com")
    (db Examples.afterFirst)
  = mkResponse 200
      (FoundBody
         (PublicView.mk "claim-1" "processing" "Book" None 1002 None None)).
Proof.
  apply (submitter_can_read_back Examples.formats Examples.firstEnv
           Examples.secondEnv (Examples.byId Examples.linkId) Examples.start
           (JObject (("target_link_id", JString Examples.linkId)
                       :: Examples.claimFields))
           (Examples.claimData None (Some Examples.linkId))
           true
           "DMCA request received and link has been removed pending review."
           "claim-1" true);
    try reflexivity; discriminate.
Defined.

End FailureFacts.

(** ** The validation schema *)

Section SchemaFacts.
Import Route.

Lemma str_Some check v s :
  Zod.str check v = Some s → v = Some (JString s) ∧ check s = true.
Proof.
  destruct v as [[]|]; cbn; try done.
  destruct (check s0) eqn:E; [|done]. by intros [= <-].
Qed.

Lemma optionalStr_Some check v o :
  Zod.optionalStr check v = Some o →
  match o with
  | Some s => v = Some (JString s) ∧ check s = true
  | None => v = None
  end.
Proof.
  destruct v as [[]|]; cbn; try done.
  - destruct (check s) eqn:E; [|done]. by intros [= <-].
  - by intros [= <-].
Qed.

Lemma trueBool_Some v b :
  Zod.trueBool v = Some b → v = Some (JBool true) ∧ b = true.
Proof. destruct v as [[| [] | | | |]|]; cbn; try done. by intros [= <-]. Qed.

Lemma lengthIn_bounds lo hi s :
  Zod.lengthIn lo hi s = true →
  (lo ≤ String.length s ∧ String.length s ≤ hi)%nat.
Proof.
  unfold Zod.lengthIn. intros [H1 H2]%andb_true_iff.
  apply Nat.leb_le in H1, H2. done.
Qed.

Lemma schema_object f body data :
  dmcaRequestSchema f body = Some data → ∃ ps, body = JObject ps.
Proof. destruct body; try done. eauto. Qed.

Lemma schema_fields f ps data :
  dmcaRequestSchema f (JObject ps) = Some data → Validated.accepted f ps data.
Proof.
  unfold dmcaRequestSchema, Validated.accepted. cbn zeta.
  destruct (Zod.str (Zod.email f) _) as [contact|] eqn:E1; [|done].
  destruct (Zod.optionalStr (Zod.lengthIn 1 200) _) as [name|] eqn:E2;
    [|done].
  destruct (Zod.optionalStr (Zod.maxLength 200) _) as [company|] eqn:E3;
    [|done].
  destruct (Zod.optionalStr (Zod.isUrl f) _) as [turl|] eqn:E4; [|done].
  destruct (Zod.optionalStr (Zod.uuid f) _) as [tid|] eqn:E5; [|done].
  destruct (Zod.str (Zod.lengthIn 1 500) _) as [title|] eqn:E6; [|done].
  destruct (Zod.str (Zod.lengthIn 20 5000) _) as [details|] eqn:E7; [|done].
  destruct (Zod.trueBool _) as [gf|] eqn:E8; [|done].
  destruct (Zod.trueBool (Zod.property "accuracy_statement" ps))
    as [acc|] eqn:E9; [|done].
  destruct (Js.truthy (Js.orElse turl tid)) eqn:Ht; [|done].
  intros [= <-]. cbn.
  apply str_Some in E1 as [E1 C1], E6 as [E6 C6], E7 as [E7 C7].
  apply trueBool_Some in E8 as [E8 _], E9 as [E9 _].
  apply optionalStr_Some in E2, E3, E4, E5.
  apply lengthIn_bounds in C6, C7.
  repeat (split; [done|]).
  split; [by destruct turl as [u|]; [destruct E4|]|].
  split; [by destruct tid as [i|]; [destruct E5|]|].
  split; [by destruct name as [i|]; [destruct E2|]|].
  split; [by destruct company as [i|]; [destruct E3|]|].
  split.
  { unfold Js.orElse in Ht. destruct (Js.truthy turl); [done|].
    by rewrite Ht. }
  split; [by intros u ->; destruct E4|].
  split; [by intros i ->; destruct E5|].
  split.
  - intros n ->. destruct E2 as [_ E2]. by apply lengthIn_bounds in E2.
  - intros c ->. destruct E3 as [_ E3]. by apply Nat.leb_le in E3.
Qed.

(** X18. A body the schema accepts is an object whose fields are taken over
    unchanged and are within bounds: a contact that passes the e-mail check,
    a title of 1 to 500 and details of 20 to 5000 characters, both
    statements [true], at least one non-empty target, and optional fields
    that are strings within their limits. *)
Theorem schema_sound f body data :
  dmcaRequestSchema f body = Some data →
  ∃ ps, body = JObject ps ∧ Validated.accepted f ps data.
Proof.
  intros H. destruct (schema_object f body data H) as [ps ->].
  exists ps. split; [done|]. by apply schema_fields.
Qed.

Lemma schema_sound_witness :
  ∃ ps,
    JObject (("target_link_id", JString Examples.linkId)
               :: Examples.claimFields) = JObject ps
    ∧ Validated.accepted Examples.formats ps
        (Examples.claimData None (Some Examples.linkId)).
Proof.
  apply (schema_sound Examples.formats
           (JObject (("target_link_id", JString Examples.linkId)
                       :: Examples.claimFields))
           (Examples.claimData None (Some Examples.linkId))).
  reflexivity.
Defined.

Lemma schema_needs_target f ps :
  Zod.property "target_url" ps = None
  ∨ Zod.property "target_url" ps = Some (JString "") →
  Zod.property "target_link_id" ps = None
  ∨ Zod.property "target_link_id" ps = Some (JString "") →
  dmcaRequestSchema f (JObject ps) = None.
Proof.
  intros Hu Hi.
  destruct (dmcaRequestSchema f (JObject ps)) as [data|] eqn:E; [|done].
  apply schema_fields in E.
  destruct E as (_ & _ & _ & _ & _ & _ & _ & _ & Hurl & Hid & _ & _ & Ht & _).
  destruct (Submission.target_url data) as [[|c u]|],
           (Submission.target_link_id data) as [[|c' i]|];
    cbn in *; try done; destruct Hu, Hi; congruence.
Qed.

(** X19. The schema rejects a body that is not an object, a body without a
    non-empty target, a body in which either statement is anything but
    [true], and a body in which an optional field is present with a value
    that is not a string ([null] included). *)
Theorem schema_rejections f :
  (∀ body, (∀ ps, body ≠ JObject ps) → dmcaRequestSchema f body = None)
  ∧ (∀ ps,
       Zod.property "target_url" ps = None
       ∨ Zod.property "target_url" ps = Some (JString "") →
       Zod.property "target_link_id" ps = None
       ∨ Zod.property "target_link_id" ps = Some (JString "") →
       dmcaRequestSchema f (JObject ps) = None)
  ∧ (∀ ps,
       Zod.property "good_faith_statement" ps ≠ Some (JBool true)
       ∨ Zod.property "accuracy_statement" ps ≠ Some (JBool true) →
       dmcaRequestSchema f (JObject ps) = None)
  ∧ (∀ ps key,
       key ∈ ["requester_name"; "requester_company"; "target_url";
              "target_link_id"] →
       (∀ s, Zod.property key ps ≠ Some (JString s)) →
       Zod.property key ps ≠ None →
       dmcaRequestSchema f (JObject ps) = None).
Proof.
  split; [|split; [|split]].
  - intros body Hno. destruct (dmcaRequestSchema f body) as [data|] eqn:E;
      [|done].
    apply schema_object in E as [ps ->]. by destruct (Hno ps).
  - intros ps. apply schema_needs_target.
  - intros ps Hst.
    destruct (dmcaRequestSchema f (JObject ps)) as [data|] eqn:E; [|done].
    apply schema_fields in E.
    destruct E as (_ & _ & _ & _ & _ & _ & Hg & Ha & _).
    by destruct Hst.
  - intros ps key Hkey Hnostr Hsome.
    destruct (dmcaRequestSchema f (JObject ps)) as [data|] eqn:E; [|done].
    apply schema_fields in E.
    destruct E as (_ & _ & _ & _ & _ & _ & _ & _ & Hurl & Hid & Hn & Hc & _).
    repeat (apply elem_of_cons in Hkey as [->|Hkey]);
      [| | | |by apply elem_of_nil in Hkey].
    + destruct (Submission.requester_name data) as [n|];
        [by destruct (Hnostr n)|done].
    + destruct (Submission.requester_company data) as [n|];
        [by destruct (Hnostr n)|done].
    + destruct (Submission.target_url data) as [n|];
        [by destruct (Hnostr n)|done].
    + destruct (Submission.target_link_id data) as [n|];
        [by destruct (Hnostr n)|done].
Qed.

Lemma schema_rejections_witness :
  dmcaRequestSchema Examples.formats (JObject Examples.claimFields) = None.
Proof.
  apply (proj1 (proj2 (schema_rejections Examples.formats))
           Examples.claimFields);
    left; reflexivity.
Defined.

(** X20. An admitted submission that names neither a URL nor a link id is
    answered 400 and stores nothing. *)
Theorem submission_without_target_stores_nothing f env request st ps :
  admits env request st →
  jsonBody request = Some (JObject ps) →
  Zod.property "target_url" ps = None
  ∨ Zod.property "target_url" ps = Some (JString "") →
  Zod.property "target_link_id" ps = None
  ∨ Zod.property "target_link_id" ps = Some (JString "") →
  (POST f env request st).1
  = mkResponse 400 (ValidationBody "Validation failed")
  ∧ db (POST f env request st).2 = db st.
Proof.
  intros Hadm Hbody Hu Hi.
  by rewrite (invalid_body_is_validation_error f env request st (JObject ps))
    by (done || by apply schema_needs_target).
Qed.

Lemma submission_without_target_stores_nothing_witness :
  (POST Examples.formats Examples.firstEnv Scenarios.noTarget
     Examples.start).1
  = mkResponse 400 (ValidationBody "Validation failed")
  ∧ db (POST Examples.formats Examples.firstEnv Scenarios.noTarget
          Examples.start).2
    = Examples.tables.
Proof.
  apply (submission_without_target_stores_nothing Examples.formats
           Examples.firstEnv Scenarios.noTarget Examples.start
           Examples.claimFields);
    try reflexivity; left; reflexivity.
Defined.

End SchemaFacts.

(** ** Which target is resolved *)

Section TargetFacts.
Import Db Route.

(** X21. When a submission carries a non-empty link id, resolution ignores its
    URL and every other field: the result is the lookup of that id. *)
Theorem explicit_id_takes_precedence env data data' d :
  Js.truthy (Submission.target_link_id data) = true →
  Submission.target_link_id data' = Submission.target_link_id data →
  resolveTarget env data' d = resolveTarget env data d
  ∧ (rejects env LinkFindUnique = false →
     (resolveTarget env data d).1
     = Ok (Submission.target_link_id data,
           select <$> linkById (chapterLink d)
                        (default "" (Submission.target_link_id data)))).
Proof.
  intros Ht Heq. unfold resolveTarget. rewrite Heq.
  unfold Js.orElse. rewrite !Ht. cbn [negb]. rewrite !andb_false_r.
  split; [done|]. intros Hacc. unfold bind, linkFindUnique.
  by rewrite call_accepted.
Qed.

Lemma explicit_id_takes_precedence_witness :
  resolveTarget Examples.firstEnv
    (Examples.claimData (Some "https://example.net/x") (Some Examples.linkId))
    (mk [Examples.other; Examples.link] [] [])
  = resolveTarget Examples.firstEnv
      (Examples.claimData None (Some Examples.linkId))
      (mk [Examples.other; Examples.link] [] []).
Proof.
  apply (explicit_id_takes_precedence Examples.firstEnv
           (Examples.claimData None (Some Examples.linkId))
           (Examples.claimData (Some "https://example.net/x")
              (Some Examples.linkId))
           (mk [Examples.other; Examples.link] [] []));
    reflexivity.
Defined.

(** X22. Two submissions without a link id whose URLs have the same normal form
    resolve to the same link over the same tables. *)
Theorem resolution_by_url_uses_normal_form env data data' d u u' :
  Js.truthy (Submission.target_link_id data) = false →
  Js.truthy (Submission.target_link_id data') = false →
  Submission.target_url data = Some u →
  Submission.target_url data' = Some u' →
  u ≠ "" → u' ≠ "" →
  Js.normalizeUrl u = Js.normalizeUrl u' →
  resolveTarget env data d = resolveTarget env data' d.
Proof.
  intros Hi Hi' Hu Hu' Hne Hne' Hnorm. unfold resolveTarget, Js.orElse.
  rewrite Hi, Hi', Hu, Hu'.
  assert (Js.truthy (Some u) = true) as -> by (by destruct u).
  assert (Js.truthy (Some u') = true) as -> by (by destruct u').
  cbn [Js.truthy negb andb].
  change (default "" (Some u)) with u. change (default "" (Some u')) with u'.
  by rewrite Hnorm.
Qed.

Lemma resolution_by_url_uses_normal_form_witness :
  resolveTarget Examples.firstEnv
    (Examples.claimData (Some "HTTPS://Example.com/Ch/1///") None)
    Examples.tables
  = resolveTarget Examples.firstEnv
      (Examples.claimData (Some "  http://example.com/ch/1") None)
      Examples.tables.
Proof.
  apply (resolution_by_url_uses_normal_form Examples.firstEnv
           (Examples.claimData (Some "HTTPS://Example.com/Ch/1///") None)
           (Examples.claimData (Some "  http://example.com/ch/1") None)
           Examples.tables "HTTPS://Example.com/Ch/1///"
           "  http://example.com/ch/1");
    try reflexivity; discriminate.
Defined.

End TargetFacts.

(** ** The status query's parameters *)

Section QueryFacts.
Import Db Route.

(** X23. The status query answers 200 only when both parameters are non-empty
    and a stored claim has exactly that id and exactly that contact; the
    body is the public view of such a claim. *)
Theorem status_disclosed_only_to_contact env id email d v :
  GET env id email d = mkResponse 200 (FoundBody v) →
  ∃ i e r,
    id = Some i ∧ email = Some e ∧ i ≠ "" ∧ e ≠ ""
    ∧ r ∈ dmcaRequest d
    ∧ DmcaRequest.id r = i
    ∧ DmcaRequest.requester_contact r = e
    ∧ v = view r.
Proof.
  unfold GET.
  destruct (Js.truthy id) eqn:Hi; [|done].
  destruct (Js.truthy email) eqn:He; [|done]. cbn [negb orb].
  destruct id as [i|]; [|done]. destruct email as [e|]; [|done].
  change (default "" (Some i)) with i. change (default "" (Some e)) with e.
  unfold requestFindFirst, call, throw.
  destruct (rejects env RequestFindFirst); [done|].
  destruct (List.find (matchesClaim i e) (dmcaRequest d)) as [r|] eqn:E;
    [|done].
  cbn. intros [= <-]. exists i, e, r.
  apply find_some in E as [Hin Hm]. unfold matchesClaim in Hm.
  apply andb_true_iff in Hm as [H1 H2].
  apply String.eqb_eq in H1, H2.
  repeat split; try done.
  - by destruct i.
  - by destruct e.
  - by apply list_elem_of_In.
Qed.

Lemma status_disclosed_only_to_contact_witness :
  ∃ i e r,
    Some "claim-1" = Some i ∧ Some "a@x.com" = Some e ∧ i ≠ "" ∧ e ≠ ""
    ∧ r ∈ dmcaRequest (db Examples.afterFirst)
    ∧ DmcaRequest.id r = i
    ∧ DmcaRequest.requester_contact r = e
    ∧ PublicView.mk "claim-1" "processing" "Book" None 1002 None None
      = view r.
Proof.
  apply (status_disclosed_only_to_contact Examples.secondEnv
           (Some "claim-1") (Some "a@x.com") (db Examples.afterFirst)).
  reflexivity.
Defined.

End QueryFacts.

(** ** More on the URL normalisation *)

Section UrlMore.
Import UrlSpec.

Lemma normalizeUrl_list s :
  list_ascii_of_string (Js.normalizeUrl s)
  = stripTrailingSlashes
      (stripScheme (trimSurrounding (lowercase (list_ascii_of_string s)))).
Proof.
  unfold Js.normalizeUrl, Js.trim, trimSurrounding.
  by rewrite replaceTrailingSlashes_list, replaceScheme_list, trimEnd_list,
             trimStart_list, toLowerCase_list.
Qed.

Lemma list_ascii_inj s t :
  list_ascii_of_string s = list_ascii_of_string t → s = t.
Proof.
  intros H. rewrite <- (string_of_list_ascii_of_string s),
                    <- (string_of_list_ascii_of_string t). by rewrite H.
Qed.

Lemma list_ascii_app s t :
  list_ascii_of_string (s ++ t)
  = (list_ascii_of_string s ++ list_ascii_of_string t)%list.
Proof.
  induction s as [|c s IH]; [done|].
  change (String c s ++ t) with (String c (s ++ t)). cbn. by rewrite IH.
Qed.

Lemma lowerChar_idempotent c : Js.lowerChar (Js.lowerChar c) = Js.lowerChar c.
Proof. destruct c as [[] [] [] [] [] [] [] []]; reflexivity. Qed.

Lemma lowerChar_whiteSpace c :
  Js.isWhiteSpace (Js.lowerChar c) = Js.isWhiteSpace c.
Proof. destruct c as [[] [] [] [] [] [] [] []]; reflexivity. Qed.

Lemma toLowerCase_idempotent s :
  Js.toLowerCase (Js.toLowerCase s) = Js.toLowerCase s.
Proof.
  induction s as [|c s IH]; cbn; [done|].
  by rewrite lowerChar_idempotent, IH.
Qed.

(** X24. The normal form does not depend on which of the two schemes a URL
    starts with, nor on the case of its letters; what remains of
    [http://s] is the lower-cased [s] without trailing white space and
    trailing slashes. *)
Theorem normalizeUrl_ignores_scheme_and_case s :
  Js.normalizeUrl ("http://" ++ s)
  = Js.replaceTrailingSlashes (Js.trimEnd (Js.toLowerCase s))
  ∧ Js.normalizeUrl ("https://" ++ s) = Js.normalizeUrl ("http://" ++ s)
  ∧ Js.normalizeUrl ("HTTP://" ++ s) = Js.normalizeUrl ("http://" ++ s)
  ∧ Js.normalizeUrl ("HTTPS://" ++ s) = Js.normalizeUrl ("http://" ++ s)
  ∧ Js.normalizeUrl (Js.toLowerCase s) = Js.normalizeUrl s.
Proof.
  assert (∀ t, Js.replaceScheme ("http://" ++ t) = t) as Hhttp.
  { intros t. unfold Js.replaceScheme.
    by rewrite (proj2 (matchScheme_Some _ t)) by auto. }
  assert (∀ t, Js.replaceScheme ("https://" ++ t) = t) as Hhttps.
  { intros t. unfold Js.replaceScheme.
    by rewrite (proj2 (matchScheme_Some _ t)) by auto. }
  assert (Js.normalizeUrl ("http://" ++ s)
          = Js.replaceTrailingSlashes (Js.trimEnd (Js.toLowerCase s))) as H1.
  { unfold Js.normalizeUrl.
    change (Js.trim (Js.toLowerCase ("http://" ++ s)))
      with ("http://" ++ Js.trimEnd (Js.toLowerCase s)).
    by rewrite Hhttp. }
  assert (∀ p, Js.toLowerCase p = "https://"
               → Js.trim (Js.toLowerCase (p ++ s))
                 = "https://" ++ Js.trimEnd (Js.toLowerCase s)) as Hs.
  { intros p Hp.
    assert (Js.toLowerCase (p ++ s) = "https://" ++ Js.toLowerCase s) as ->.
    { rewrite <- Hp. clear. induction p as [|c p IH]; [done|].
      change (String c p ++ s) with (String c (p ++ s)). cbn.
      rewrite IH. reflexivity. }
    reflexivity. }
  split; [done|]. split; [|split; [|split]].
  - rewrite H1. unfold Js.normalizeUrl. rewrite Hs by done. by rewrite Hhttps.
  - rewrite H1. unfold Js.normalizeUrl.
    change (Js.trim (Js.toLowerCase ("HTTP://" ++ s)))
      with ("http://" ++ Js.trimEnd (Js.toLowerCase s)).
    by rewrite Hhttp.
  - rewrite H1. unfold Js.normalizeUrl. rewrite Hs by done. by rewrite Hhttps.
  - unfold Js.normalizeUrl. by rewrite toLowerCase_idempotent.
Qed.

Lemma Forall_dropWhile {A} (P : A → Prop) (p : A → bool) (l : list A) :
  Forall P l → Forall P (dropWhile p l).
Proof.
  induction 1 as [|x l Hx Hl IH]; cbn; [constructor|].
  destruct (p x); [done|by constructor].
Qed.

Lemma Forall_dropWhileEnd {A} (P : A → Prop) (p : A → bool) (l : list A) :
  Forall P l → Forall P (dropWhileEnd p l).
Proof.
  intros H. unfold dropWhileEnd.
  apply Forall_rev, Forall_dropWhile, Forall_rev, H.
Qed.

Lemma dropWhile_head {A} (p : A → bool) (l : list A) x t :
  dropWhile p l = x :: t → p x = false.
Proof.
  induction l as [|y l IH]; [done|]. cbn.
  destruct (p y) eqn:E; [done|]. by intros [= <- _].
Qed.

Lemma dropWhileEnd_last {A} (p : A → bool) (l t : list A) x :
  dropWhileEnd p l = (t ++ [x])%list → p x = false.
Proof.
  unfold dropWhileEnd. intros H.
  apply (f_equal (@rev A)) in H. rewrite rev_involutive, rev_app_distr in H.
  by apply dropWhile_head in H.
Qed.

(** X25. A normal form never ends with a slash and contains no capital letter
    [A] to [Z]. *)
Theorem normalizeUrl_output_form s :
  (∀ t, Js.normalizeUrl s ≠ t ++ "/")
  ∧ Forall (λ c, Js.inRange 65 90 c = false)
           (list_ascii_of_string (Js.normalizeUrl s)).
Proof.
  split.
  - intros t H. apply (f_equal list_ascii_of_string) in H.
    rewrite normalizeUrl_list, list_ascii_app in H.
    by apply dropWhileEnd_last in H.
  - rewrite normalizeUrl_list.
    apply Forall_dropWhileEnd.
    assert (∀ l, Forall (λ c, Js.inRange 65 90 c = false) l
                 → Forall (λ c, Js.inRange 65 90 c = false) (stripScheme l))
      as Hstrip.
    { intros l Hl. unfold stripScheme.
      repeat case_match; try done; by apply Forall_drop. }
    apply Hstrip, Forall_dropWhileEnd, Forall_dropWhile.
    unfold lowercase. apply Forall_map, Forall_forall.
    intros c _. apply no_upper_case.
Qed.

Lemma normalizeUrl_output_form_witness :
  Js.normalizeUrl "HTTPS://Example.com/Path/" ≠ "example.com/path" ++ "/".
Proof.
  apply (proj1 (normalizeUrl_output_form "HTTPS://Example.com/Path/")).
Defined.

Lemma dropWhile_lowercase l :
  dropWhile Js.isWhiteSpace (lowercase l)
  = lowercase (dropWhile Js.isWhiteSpace l).
Proof.
  unfold lowercase. induction l as [|c l IH]; [done|]. cbn.
  rewrite lowerChar_whiteSpace. by destruct (Js.isWhiteSpace c).
Qed.

Lemma dropWhile_nil_rev {A} (p : A → bool) (l : list A) :
  dropWhile p l = [] → dropWhile p (rev l) = [].
Proof.
  intros H.
  assert (Forall (λ x, p x = true) l) as Hall.
  { induction l as [|x l IH]; [constructor|]. cbn in H.
    destruct (p x) eqn:E; [|done]. constructor; auto. }
  apply Forall_rev in Hall. clear H.
  induction Hall as [|x l' Hx _ IH]; [done|]. cbn. by rewrite Hx.
Qed.

Lemma dropWhileEnd_app_blank {A} (p : A → bool) (l b : list A) :
  dropWhile p b = [] → dropWhileEnd p (l ++ b) = dropWhileEnd p l.
Proof.
  intros H. unfold dropWhileEnd. rewrite rev_app_distr, dropWhile_app.
  by rewrite dropWhile_nil_rev.
Qed.

Lemma trimSurrounding_blank a l b :
  dropWhile Js.isWhiteSpace a = [] →
  dropWhile Js.isWhiteSpace b = [] →
  trimSurrounding (a ++ l ++ b) = trimSurrounding l.
Proof.
  intros Ha Hb. unfold trimSurrounding.
  rewrite dropWhile_app, Ha, dropWhile_app.
  destruct (dropWhile Js.isWhiteSpace l) as [|x t] eqn:E.
  - by rewrite Hb.
  - by rewrite dropWhileEnd_app_blank.
Qed.

(** X26. White space around a URL does not change its normal form. *)
Theorem normalizeUrl_ignores_surrounding_blanks w s w' :
  Js.trimStart w = "" →
  Js.trimStart w' = "" →
  Js.normalizeUrl (w ++ s ++ w') = Js.normalizeUrl s.
Proof.
  intros Hw Hw'. apply list_ascii_inj. rewrite !normalizeUrl_list.
  rewrite !list_ascii_app. unfold lowercase. rewrite !map_app.
  fold (lowercase (list_ascii_of_string w)).
  fold (lowercase (list_ascii_of_string s)).
  fold (lowercase (list_ascii_of_string w')).
  rewrite trimSurrounding_blank; [done| |];
    rewrite dropWhile_lowercase, <- trimStart_list.
  - by rewrite Hw.
  - by rewrite Hw'.
Qed.

Lemma normalizeUrl_ignores_surrounding_blanks_witness :
  Js.normalizeUrl ("  " ++ "https://Example.com/ch/1/" ++ " ")
  = Js.normalizeUrl "https://Example.com/ch/1/".
Proof.
  apply (normalizeUrl_ignores_surrounding_blanks
           "  " "https://Example.com/ch/1/" " ");
    reflexivity.
Defined.

End UrlMore.

(** ** The session middleware *)

Section MiddlewareFacts.
Import Middleware.

Lemma startsWith_iff pathname path :
  startsWith pathname path = true ↔ ∃ rest, pathname = path ++ rest.
Proof.
  unfold startsWith.
  destruct (Js.matchLiteral path pathname) as [rest|] eqn:E; cbn.
  - apply matchLiteral_Some in E. split; eauto.
  - split; [done|]. intros [rest H].
    apply matchLiteral_Some in H. congruence.
Qed.

(** Every public API prefix lies under [/api]. *)
Lemma public_api_is_api pathname :
  existsb (startsWith pathname) publicApiPaths = true →
  startsWith pathname "/api" = true.
Proof.
  intros H. apply existsb_exists in H as (path & Hin & Hp).
  apply startsWith_iff in Hp as [rest ->].
  apply startsWith_iff.
  cbn in Hin.
  repeat (destruct Hin as [<-|Hin]; [eexists; reflexivity|]).
  done.
Qed.

(** X27. The middleware gives one of three answers.  It answers 401 exactly
    to signed-out requests for API paths outside the public API prefixes; it
    redirects to [/login] exactly the signed-out requests for non-API paths
    other than [/] outside the public page prefixes; it lets through, with
    the pass-through response, exactly the rest: every signed-in request,
    the public API paths, and the public pages and [/].  A timed-out or
    failed auth call counts as signed out; the user returned is the raced
    one when the request passes and none when it is blocked. *)
Theorem session_gate_decisions race pathname :
  let result := updateSession race pathname in
  let signedOut := raceUser race = None in
  let api := startsWith pathname "/api" = true in
  let publicApi := existsb (startsWith pathname) publicApiPaths = true in
  let publicPage := existsb (startsWith pathname) publicPaths = true in
  (response result = Json 401 "unauthorized"
   ↔ signedOut ∧ api ∧ ¬ publicApi)
  ∧ (response result = Redirect "/login"
     ↔ signedOut ∧ ¬ api ∧ ¬ publicPage ∧ pathname ≠ "/")
  ∧ (response result = Next → user result = raceUser race)
  ∧ (response result ≠ Next → user result = None)
  ∧ (response result = Next
     ↔ ¬ signedOut ∨ (api ∧ publicApi)
       ∨ (¬ api ∧ (publicPage ∨ pathname = "/")))
  ∧ (response result = Json 401 "unauthorized"
     ∨ response result = Redirect "/login"
     ∨ response result = Next)
  ∧ (raceUser race = None
     ↔ race = TimedOut ∨ race = Settled Supabase.Rejected
       ∨ race = Settled (Supabase.Resolved None)).
Proof.
  cbn zeta. unfold updateSession.
  pose proof (public_api_is_api pathname) as Hsub.
  assert (raceUser race = None
          ↔ race = TimedOut ∨ race = Settled Supabase.Rejected
            ∨ race = Settled (Supabase.Resolved None)) as Hrace.
  { destruct race as [[[u|]|]|]; cbn; intuition congruence. }
  destruct (raceUser race) as [u|] eqn:Hu; cbn [Js.toBoolean negb].
  { cbn. repeat split; try done; try (intuition congruence).
    all: try (apply Hrace); try (intros; apply Hrace; done). }
  destruct (startsWith pathname "/api") eqn:Hapi;
    destruct (existsb (startsWith pathname) publicApiPaths) eqn:Hpa;
    destruct (existsb (startsWith pathname) publicPaths) eqn:Hpp;
    destruct (String.eqb_spec pathname "/") as [Hroot|Hroot];
    cbn; repeat split; try done; try (intuition congruence);
    try (apply Hrace); try (intros; apply Hrace; done).
Qed.

Lemma session_gate_decisions_witness :
  response (updateSession TimedOut "/api/dmca") = Json 401 "unauthorized".
Proof.
  destruct (session_gate_decisions TimedOut "/api/dmca") as [[_ H] _].
  apply H. split; [reflexivity|]. split; [reflexivity|discriminate].
Defined.

(** X28. A path that begins with one of the public prefixes passes the
    middleware for every caller, whatever follows the prefix. *)
Theorem public_prefixes_pass race prefix rest :
  prefix ∈ (publicPaths ++ publicApiPaths)%list →
  updateSession race (prefix ++ rest) = mkResult Next (raceUser race).
Proof.
  intros Hin. unfold publicPaths, publicApiPaths in Hin. cbn in Hin.
  repeat (apply elem_of_cons in Hin as [->|Hin]);
    [..|by apply elem_of_nil in Hin];
    unfold updateSession; by destruct (raceUser race).
Qed.

Lemma public_prefixes_pass_witness :
  updateSession TimedOut ("/auth" ++ "ors/42") = mkResult Next None.
Proof.
  apply (public_prefixes_pass TimedOut "/auth" "ors/42").
  unfold publicPaths, publicApiPaths. cbn.
  apply list_elem_of_In. right. right. right. right. left. reflexivity.
Defined.

(** X29. Signed-out requests for paths under [/api/dmca] and under
    [/api/admin/metrics] are answered 401 by the middleware. *)
Theorem takedown_route_requires_session race rest :
  raceUser race = None →
  updateSession race ("/api/dmca" ++ rest)
  = mkResult (Json 401 "unauthorized") None
  ∧ updateSession race ("/api/admin/metrics" ++ rest)
    = mkResult (Json 401 "unauthorized") None.
Proof.
  intros H. unfold updateSession. rewrite H. split; reflexivity.
Qed.

Lemma takedown_route_requires_session_witness :
  updateSession (Settled Supabase.Rejected) ("/api/dmca" ++ "")
  = mkResult (Json 401 "unauthorized") None
  ∧ updateSession (Settled Supabase.Rejected) ("/api/admin/metrics" ++ "")
    = mkResult (Json 401 "unauthorized") None.
Proof.
  apply (takedown_route_requires_session (Settled Supabase.Rejected) "").
  reflexivity.
Defined.

End MiddlewareFacts.

(** ** The metrics route *)

Section MetricsFacts.
Import Metrics.
Context {Summary : Type}.

(** X30. The metrics route returns the metrics exactly when the client could be
    created, the user's [app_metadata.role] is the string [admin] and the
    summary was computed; without a user the error is the 401 [ApiError],
    and for any other user the 403 one, whether or not the summary would
    have been available. *)
Theorem metrics_only_for_admin (env : Env Summary) :
  (∀ ts w m,
     GET env = MetricsJson ts w m
     ↔ createClient env = true
       ∧ (∃ u, getUser env = Supabase.Resolved (Some u)
               ∧ ∃ ps, Supabase.app_metadata u = Some ps
                       ∧ Zod.property "role" ps = Some (JString "admin"))
       ∧ getMetricsSummary env = Some m
       ∧ ts = timestamp env ∧ w = 60000)
  ∧ (createClient env = true →
     getUser env = Supabase.Resolved None →
     GET env = HandleApiError (ApiError "Unauthorized" 401 UNAUTHORIZED))
  ∧ (∀ u, createClient env = true →
          getUser env = Supabase.Resolved (Some u) →
          isAdmin u = false →
          GET env
          = HandleApiError
              (ApiError "Forbidden: Admin privileges required" 403
                 FORBIDDEN)).
Proof.
  split; [|split].
  - intros ts w m. unfold GET, body.
    destruct (createClient env); cbn [negb];
      [|split; [done|by intros [? _]]].
    destruct (getUser env) as [[u|]|];
      [|split; [done|by intros (_ & (? & ? & _) & _)]..].
    unfold isAdmin.
    destruct (Supabase.app_metadata u) as [ps|] eqn:Hps; cbn [negb].
    2:{ split; [done|]. intros (_ & (u' & [= <-] & ps & Hps' & _) & _).
        congruence. }
    destruct (Zod.property "role" ps) as [[| | |role| |]|] eqn:Hrole;
      cbn [negb];
      try (split; [done|];
           intros (_ & (u' & [= <-] & ps' & Hps' & Hr) & _); congruence).
    destruct (String.eqb_spec role "admin") as [->|Hne]; cbn [negb].
    + destruct (getMetricsSummary env) as [m'|].
      * split.
        -- intros [= <- <- <-]. repeat split; try done.
           exists u. split; [done|]. by exists ps.
        -- intros (_ & _ & [= ->] & -> & ->). done.
      * split; [done|]. by intros (_ & _ & ? & _).
    + split; [done|].
      intros (_ & (u' & [= <-] & ps' & Hps' & Hr) & _). congruence.
  - intros Hc Hu. unfold GET, body. by rewrite Hc, Hu.
  - intros u Hc Hu Hadm. unfold GET, body. by rewrite Hc, Hu, Hadm.
Qed.

End MetricsFacts.

Lemma metrics_only_for_admin_witness :
  Metrics.GET (Scenarios.metricsEnv Scenarios.member)
  = Metrics.HandleApiError
      (Metrics.ApiError "Forbidden: Admin privileges required" 403
         Metrics.FORBIDDEN).
Proof.
  apply (proj2 (proj2 (metrics_only_for_admin
                         (Scenarios.metricsEnv Scenarios.member)))
           Scenarios.member);
    reflexivity.
Defined.
